(** * mrp: unit conversion, production confirmation and sales-order completion

    A shallow embedding of the stock logic of [src/App.js]:
    - [convertUnits] (lines 24-67),
    - [handleConfirmProduction] of the [Recipes] component (lines 834-931),
    - [handleChangeOrderStatus] of the [SalesNote] component (lines 1258-1323),
    - the handlers of the forms of the inventory, recipes, sales-note and
      converter pages.

    Conventions of the embedding.
    - JavaScript numbers are idealised: a [number] is a rational or [NaN].
      Rounding, overflow, infinities and signed zeros are not modelled.
    - Strings are Rocq strings, taken to hold ASCII text: [toLowerCase]
      folds the letters A-Z and [trim] strips the white space of ASCII.
      Letters and spaces outside ASCII, which the built-in functions also
      fold and strip, are not modelled.
    - A Firestore collection is a finite map from document id to document
      data.  A React snapshot ([inventoryItems], [recipes]) is a list of
      documents carrying their id; it is an argument of the handlers and may
      be older than the collection the handler writes to.
    - [window.confirm] is the boolean [confirm]; the text passed to
      [showInfoModal] is abstracted to the constructor of an outcome.  The
      outcome of a refusal carries the data interpolated into the text; the
      outcome of a success carries none, and the name that the message of a
      re-opened order shows is [reopenedOrderName]. *)

From Stdlib Require Import QArith Lqa Ascii String.
From stdpp Require Import gmap strings list fin_maps.

(** ** Numbers *)

Inductive number : Type :=
| Num (q : Q)
| NaN.

Module Number.

Definition mul (a b : number) : number :=
  match a, b with
  | Num x, Num y => Num (x * y)
  | _, _ => NaN
  end.

(** A quotient by zero is [Infinity], [-Infinity] or [NaN] in JavaScript:
    none is a rational, and the embedding has [NaN] for the three.  No
    statement below depends on a quotient by zero. *)
Definition div (a b : number) : number :=
  match a, b with
  | Num x, Num y => if Qeq_bool y 0 then NaN else Num (x / y)
  | _, _ => NaN
  end.

Definition add (a b : number) : number :=
  match a, b with
  | Num x, Num y => Num (x + y)
  | _, _ => NaN
  end.

Definition sub (a b : number) : number :=
  match a, b with
  | Num x, Num y => Num (x - y)
  | _, _ => NaN
  end.

(** [a < b] and [a <= b]: false as soon as one side is [NaN]. *)
Definition lt (a b : number) : bool :=
  match a, b with
  | Num x, Num y => negb (Qle_bool y x)
  | _, _ => false
  end.

Definition le (a b : number) : bool :=
  match a, b with
  | Num x, Num y => Qle_bool x y
  | _, _ => false
  end.

(** [0 <= a], as a proposition: [NaN] is not. *)
Definition nonneg (a : number) : Prop :=
  match a with
  | Num x => (0 <= x)%Q
  | NaN => False
  end.

Definition positive (a : number) : Prop :=
  match a with
  | Num x => (0 < x)%Q
  | NaN => False
  end.

Definition isNum (a : number) : Prop :=
  match a with
  | Num _ => True
  | NaN => False
  end.

End Number.

(** [parseFloat] is only applied to an ingredient quantity, which the recipe
    form stored as a number ([quantity: parseFloat(ing.quantity)], line 782):
    on a number it is the identity. *)
Definition parseFloat (n : number) : number := n.

(** ** Strings *)

Definition lowerChar (c : ascii) : ascii :=
  let n := nat_of_ascii c in
  if (65 <=? n)%nat && (n <=? 90)%nat then ascii_of_nat (n + 32) else c.

Fixpoint toLowerCase (s : string) : string :=
  match s with
  | EmptyString => EmptyString
  | String c s' => String (lowerChar c) (toLowerCase s')
  end.

(** ** Property lookup on an object literal

    [conversionFactors.mass[u]] reads a property of an object literal: an own
    property if there is one, else a property inherited from
    [Object.prototype] (a function or an object, never a number), else
    [undefined]. *)

Inductive property : Type :=
| Own (factor : Q)
| Inherited.

Definition objectPrototype : list string :=
  [ "constructor"; "hasOwnProperty"; "isPrototypeOf"; "propertyIsEnumerable";
    "toLocaleString"; "toString"; "valueOf"; "__proto__";
    "__defineGetter__"; "__defineSetter__"; "__lookupGetter__";
    "__lookupSetter__" ].

Definition inherited (key : string) : bool :=
  existsb (String.eqb key) objectPrototype.

Definition getProperty (o : gmap string Q) (key : string) : option property :=
  match o !! key with
  | Some q => Some (Own q)
  | None => if inherited key then Some Inherited else None
  end.

(** [if (o[key])]: [undefined] and [0] are falsy, a function or object is
    truthy. *)
Definition truthy (p : option property) : bool :=
  match p with
  | Some (Own q) => negb (Qeq_bool q 0)
  | Some Inherited => true
  | None => false
  end.

(** The operand of [*] and [/]: a function, an object and [undefined] all
    convert to [NaN]. *)
Definition toNumber (p : option property) : number :=
  match p with
  | Some (Own q) => Num q
  | Some Inherited => NaN
  | None => NaN
  end.

(** ** convertUnits *)

Definition conversionFactors : gmap string (gmap string Q) :=
  {[ "mass" := {[ "g" := 1%Q; "kg" := 1000%Q ]};
     "volume" := {[ "ml" := 1%Q; "lt" := 1000%Q; "cc" := 1%Q ]};
     "count" := {[ "unidad" := 1%Q ]} ]}.

(** The chain of tests that sets [fromCategory], and [toCategory]. *)
Definition categoryOf (u : string) : string :=
  if truthy (getProperty (conversionFactors !!! "mass") u) then "mass"
  else if truthy (getProperty (conversionFactors !!! "volume") u) then "volume"
  else if truthy (getProperty (conversionFactors !!! "count") u) then "count"
  else EmptyString.

(** The result is [None] for the [null] of an incompatible conversion.  The
    last two lookups are reached with a category of the table only. *)
Definition convertUnits (value : number) (fromUnit toUnit : string)
  : option number :=
  let standardizedFromUnit := toLowerCase fromUnit in
  let standardizedToUnit := toLowerCase toUnit in
  if String.eqb standardizedFromUnit standardizedToUnit then Some value
  else
    let fromCategory := categoryOf standardizedFromUnit in
    let toCategory := categoryOf standardizedToUnit in
    if negb (String.eqb fromCategory toCategory)
       || String.eqb fromCategory EmptyString
    then None
    else
      let valueInBase :=
        Number.mul value
          (toNumber (getProperty (conversionFactors !!! fromCategory)
                       standardizedFromUnit)) in
      let result :=
        Number.div valueInBase
          (toNumber (getProperty (conversionFactors !!! toCategory)
                       standardizedToUnit)) in
      Some result.

(** ** Documents and collections *)

Module Inventory.

(** A document of the [inventory] collection.  [createdAt], a time stamp
    that no handler reads, is left out. *)
Record doc : Type := Doc {
  name : string;
  unit_value : number;
  unit_type : string;
  stock : number;
  type : string
}.

(** The effect of [updateDoc(ref, { stock: s })] on the document. *)
Definition setStock (s : number) (d : doc) : doc :=
  {| name := name d; unit_value := unit_value d; unit_type := unit_type d;
     stock := s; type := type d |}.

End Inventory.

Module Ingredient.

Record ingredient : Type := Ingredient {
  name : string;
  quantity : number;
  unit : string
}.

End Ingredient.

Module Recipe.

Record doc : Type := Doc {
  name : string;
  type : string;
  ingredients : list Ingredient.ingredient
}.

End Recipe.

Module Order.

Record doc : Type := Doc {
  customerName : string;
  orderType : string;
  selectedRecipeId : option string;
  productDescription : string;
  quantity : number;
  orderDate : string;
  status : string
}.

(** The effect of [updateDoc(ref, { status: s })] on the document. *)
Definition setStatus (s : string) (d : doc) : doc :=
  {| customerName := customerName d; orderType := orderType d;
     selectedRecipeId := selectedRecipeId d;
     productDescription := productDescription d; quantity := quantity d;
     orderDate := orderDate d; status := s |}.

End Order.

(** An element of a snapshot: [{ id: doc.id, ...doc.data() }]. *)
Abbreviation inventoryItem := (string * Inventory.doc)%type.
Abbreviation recipe := (string * Recipe.doc)%type.

(** The snapshot a listener receives from a collection. *)
Definition snapshot {D : Type} (collection : gmap string D)
  : list (string * D) :=
  map_to_list collection.

(** [updateDoc] rejects when the document does not exist (any more); this
    is the one failure of the store that the embedding has. *)
Definition updateDoc {D : Type} (collection : gmap string D) (id : string)
    (update : D → D) : option (gmap string D) :=
  match collection !! id with
  | Some d => Some (<[id := update d]> collection)
  | None => None
  end.

(** [addDoc] stores the document under an id that is not in use. *)
Definition addDoc {D : Type} (collection : gmap string D) (d : D)
  : gmap string D :=
  <[fresh (dom collection) := d]> collection.

(** ** handleConfirmProduction *)

(** The three lines that the loop can push to [shortageMessages], with the
    values interpolated into them. *)
Inductive shortage : Type :=
| NotFound (name : string)
| ConversionError (name : string)
| Insufficient (name : string) (required available : number)
    (unit_type : string).

Record deduction : Type := Deduction {
  itemId : string;
  newStock : number
}.

(** The variables of the loop over [recipe.ingredients]. *)
Record planning : Type := Planning {
  canProduce : bool;
  shortageMessages : list shortage;
  deductions : list deduction
}.

Definition isNamed (kind name : string) (item : inventoryItem) : bool :=
  String.eqb (toLowerCase (Inventory.name item.2)) (toLowerCase name)
  && String.eqb (Inventory.type item.2) kind.

(** One iteration of the loop. *)
Definition checkIngredient (inventoryItems : list inventoryItem)
    (quantityToProduce : number) (p : planning) (ing : Ingredient.ingredient)
  : planning :=
  let requiredAmountRecipeBase := parseFloat (Ingredient.quantity ing) in
  let requiredUnitRecipe := Ingredient.unit ing in
  match List.find (isNamed "raw_material" (Ingredient.name ing))
          inventoryItems with
  | None =>
      {| canProduce := false;
         shortageMessages :=
           shortageMessages p ++ [NotFound (Ingredient.name ing)];
         deductions := deductions p |}
  | Some inventoryItem =>
      match convertUnits
              (Number.mul requiredAmountRecipeBase quantityToProduce)
              requiredUnitRecipe (Inventory.unit_type inventoryItem.2) with
      | None =>
          {| canProduce := false;
             shortageMessages :=
               shortageMessages p ++ [ConversionError (Ingredient.name ing)];
             deductions := deductions p |}
      | Some requiredAmountConverted =>
          let currentStockTotalInBaseUnit :=
            Number.mul (Inventory.stock inventoryItem.2)
              (Inventory.unit_value inventoryItem.2) in
          let short :=
            Number.lt currentStockTotalInBaseUnit requiredAmountConverted in
          let newStockForIngredient :=
            Number.div
              (Number.sub currentStockTotalInBaseUnit requiredAmountConverted)
              (Inventory.unit_value inventoryItem.2) in
          {| canProduce := if short then false else canProduce p;
             shortageMessages :=
               if short
               then shortageMessages p ++
                    [Insufficient (Ingredient.name ing) requiredAmountConverted
                       currentStockTotalInBaseUnit
                       (Inventory.unit_type inventoryItem.2)]
               else shortageMessages p;
             deductions :=
               deductions p ++
               [{| itemId := inventoryItem.1;
                   newStock := newStockForIngredient |}] |}
      end
  end.

Definition checkIngredients (inventoryItems : list inventoryItem)
    (quantityToProduce : number) (ingredients : list Ingredient.ingredient)
  : planning :=
  fold_left (checkIngredient inventoryItems quantityToProduce) ingredients
    {| canProduce := true; shortageMessages := []; deductions := [] |}.

(** The loop [for (const deduction of deductions) await updateDoc(...)]:
    the first rejected write ends it, and the writes before it stay. *)
Fixpoint applyDeductions (ds : list deduction)
    (inventory : gmap string Inventory.doc)
  : bool * gmap string Inventory.doc :=
  match ds with
  | [] => (true, inventory)
  | d :: ds' =>
      match updateDoc inventory (itemId d)
              (Inventory.setStock (newStock d)) with
      | Some inventory' => applyDeductions ds' inventory'
      | None => (false, inventory)
      end
  end.

Inductive productionOutcome : Type :=
| NotAuthenticated
| InvalidQuantity
| Shortages (messages : list shortage)
| Declined
| Confirmed
| Failed.

(** [ready] stands for [db && userId]; [inventoryItems] is the snapshot held
    by the component; [inventory] is the collection at the time of the
    writes.  The result is the message shown and the collection left. *)
Definition handleConfirmProduction (ready : bool)
    (inventoryItems : list inventoryItem) (confirm : bool)
    (recipe : recipe) (quantityToProduce : number)
    (inventory : gmap string Inventory.doc)
  : productionOutcome * gmap string Inventory.doc :=
  if negb ready then (NotAuthenticated, inventory)
  else if Number.le quantityToProduce (Num 0) then (InvalidQuantity, inventory)
  else
    let p := checkIngredients inventoryItems quantityToProduce
               (Recipe.ingredients recipe.2) in
    let finishedProductInInventory :=
      List.find (isNamed "finished_good" (Recipe.name recipe.2))
        inventoryItems in
    if negb (canProduce p) then (Shortages (shortageMessages p), inventory)
    else if negb confirm then (Declined, inventory)
    else
      match applyDeductions (deductions p) inventory with
      | (false, inventory') => (Failed, inventory')
      | (true, inventory') =>
          match finishedProductInInventory with
          | Some finishedProduct =>
              let newStock :=
                Number.add (Inventory.stock finishedProduct.2)
                  quantityToProduce in
              match updateDoc inventory' finishedProduct.1
                      (Inventory.setStock newStock) with
              | Some inventory'' => (Confirmed, inventory'')
              | None => (Failed, inventory')
              end
          | None =>
              (Confirmed,
               addDoc inventory'
                 {| Inventory.name := Recipe.name recipe.2;
                    Inventory.unit_value := Num 1;
                    Inventory.unit_type := "unidad";
                    Inventory.stock := quantityToProduce;
                    Inventory.type := "finished_good" |})
          end
      end.

(** ** handleChangeOrderStatus *)

Inductive orderOutcome : Type :=
| OrderNotAuthenticated
| ProductNotFound (name : string)
| InsufficientStock (name : string) (stock : number) (unit_type : string)
    (quantity : number)
| OrderDeclined
| Completed
| Reopened
| OrderFailed.

(** [if (selectedRecipeId)]: [null] and the empty string are falsy. *)
Definition isSet (selectedRecipeId : option string) : bool :=
  match selectedRecipeId with
  | Some i => negb (String.eqb i EmptyString)
  | None => false
  end.

Definition productNameForDeduction (recipes : list recipe)
    (selectedRecipeId : option string) (productDescription : string)
  : string :=
  if isSet selectedRecipeId then
    match List.find
            (λ r : recipe, bool_decide (Some r.1 = selectedRecipeId))
            recipes with
    | Some associatedRecipe => Recipe.name associatedRecipe.2
    | None => productDescription
    end
  else productDescription.

Definition handleChangeOrderStatus (ready : bool)
    (inventoryItems : list inventoryItem) (recipes : list recipe)
    (confirm : bool)
    (orderId currentStatus : string) (selectedRecipeId : option string)
    (productDescription : string) (quantity : number)
    (inventory : gmap string Inventory.doc)
    (salesOrders : gmap string Order.doc)
  : orderOutcome * gmap string Inventory.doc * gmap string Order.doc :=
  if negb ready then (OrderNotAuthenticated, inventory, salesOrders)
  else
    let newStatus :=
      if String.eqb currentStatus "Pendiente" then "Completado"
      else "Pendiente" in
    if String.eqb newStatus "Completado" then
      let name :=
        productNameForDeduction recipes selectedRecipeId productDescription in
      match List.find (isNamed "finished_good" name) inventoryItems with
      | None => (ProductNotFound name, inventory, salesOrders)
      | Some finishedProduct =>
          if Number.lt (Inventory.stock finishedProduct.2) quantity then
            (InsufficientStock name (Inventory.stock finishedProduct.2)
               (Inventory.unit_type finishedProduct.2) quantity,
             inventory, salesOrders)
          else if negb confirm then (OrderDeclined, inventory, salesOrders)
          else
            let newStock :=
              Number.sub (Inventory.stock finishedProduct.2) quantity in
            match updateDoc inventory finishedProduct.1
                    (Inventory.setStock newStock) with
            | None => (OrderFailed, inventory, salesOrders)
            | Some inventory' =>
                match updateDoc salesOrders orderId
                        (Order.setStatus newStatus) with
                | None => (OrderFailed, inventory', salesOrders)
                | Some salesOrders' => (Completed, inventory', salesOrders')
                end
            end
      end
    else if negb confirm then (OrderDeclined, inventory, salesOrders)
    else
      match updateDoc salesOrders orderId (Order.setStatus newStatus) with
      | None => (OrderFailed, inventory, salesOrders)
      | Some salesOrders' => (Reopened, inventory, salesOrders')
      end.

(** * Notions of the specification

    The statements below are written with these definitions: they follow
    the words of the specification, not a function of the source. *)

(** ** The unit category table *)

(** The table as the specification lists it, the count symbol being
    ['unidad'] in the source: each symbol with its category and its factor. *)
Inductive category : Type := Mass | Volume | Count.

Definition unitCategoryTable : list (string * (category * Q)) :=
  [ ("g", (Mass, 1%Q)); ("kg", (Mass, 1000%Q));
    ("ml", (Volume, 1%Q)); ("lt", (Volume, 1000%Q)); ("cc", (Volume, 1%Q));
    ("unidad", (Count, 1%Q)) ].

Fixpoint assoc {A : Type} (key : string) (l : list (string * A)) : option A :=
  match l with
  | [] => None
  | (k, a) :: l' => if String.eqb key k then Some a else assoc key l'
  end.

Definition factorOf (u : string) : option (category * Q) :=
  assoc u unitCategoryTable.

Definition categoryName (c : category) : string :=
  match c with
  | Mass => "mass"
  | Volume => "volume"
  | Count => "count"
  end.

Definition sameCategory (c c' : category) : bool :=
  match c, c' with
  | Mass, Mass | Volume, Volume | Count, Count => true
  | _, _ => false
  end.

(** ** The plan of a production *)

(** The plan as the specification words it (section 4.2): every ingredient
    is assessed on its own, and yields a shortage or a deduction entry. *)
Inductive planResult : Type :=
| ShortageReport (shortages : list shortage)
| DeductionPlan (entries : list deduction).

Definition assess (inventorySnapshot : list inventoryItem)
    (quantityToProduce : number) (ing : Ingredient.ingredient)
  : shortage + deduction :=
  match List.find (isNamed "raw_material" (Ingredient.name ing))
          inventorySnapshot with
  | None => inl (NotFound (Ingredient.name ing))
  | Some matchedItem =>
      match convertUnits
              (Number.mul (Ingredient.quantity ing) quantityToProduce)
              (Ingredient.unit ing) (Inventory.unit_type matchedItem.2) with
      | None => inl (ConversionError (Ingredient.name ing))
      | Some requiredBase =>
          let availableBase :=
            Number.mul (Inventory.stock matchedItem.2)
              (Inventory.unit_value matchedItem.2) in
          if Number.lt availableBase requiredBase
          then inl (Insufficient (Ingredient.name ing) requiredBase
                      availableBase (Inventory.unit_type matchedItem.2))
          else inr {| itemId := matchedItem.1;
                      newStock :=
                        Number.div (Number.sub availableBase requiredBase)
                          (Inventory.unit_value matchedItem.2) |}
      end
  end.

Definition shortagesOf (results : list (shortage + deduction))
  : list shortage :=
  omap (λ r, match r with inl s => Some s | inr _ => None end) results.

Definition entriesOf (results : list (shortage + deduction))
  : list deduction :=
  omap (λ r, match r with inl _ => None | inr e => Some e end) results.

Definition plan (inventorySnapshot : list inventoryItem)
    (quantityToProduce : number) (ingredients : list Ingredient.ingredient)
  : planResult :=
  let results := map (assess inventorySnapshot quantityToProduce) ingredients in
  match shortagesOf results with
  | [] => DeductionPlan (entriesOf results)
  | shortages => ShortageReport shortages
  end.

(** What a deduction entry of the plan holds. *)
Definition entryFor (inventoryItems : list inventoryItem)
    (quantityToProduce : number) (ing : Ingredient.ingredient) (e : deduction)
  : Prop :=
  ∃ (matchedItem : inventoryItem) (requiredBase : number),
    List.find (isNamed "raw_material" (Ingredient.name ing)) inventoryItems
    = Some matchedItem
    ∧ convertUnits (Number.mul (Ingredient.quantity ing) quantityToProduce)
        (Ingredient.unit ing) (Inventory.unit_type matchedItem.2)
      = Some requiredBase
    ∧ let availableBase :=
        Number.mul (Inventory.stock matchedItem.2)
          (Inventory.unit_value matchedItem.2) in
      Number.lt availableBase requiredBase = false
      ∧ itemId e = matchedItem.1
      ∧ newStock e
        = Number.div (Number.sub availableBase requiredBase)
            (Inventory.unit_value matchedItem.2).

(** ** Stock values *)

(** Every stock value of the collection satisfies [P]. *)
Definition stocksSatisfy (P : number → Prop)
    (inventory : gmap string Inventory.doc) : Prop :=
  map_Forall (λ _ d, P (Inventory.stock d)) inventory.

(** [n < 0] is false.  For a rational this is [0 <= n]; [NaN] is not below
    zero either. *)
Definition notBelowZero (n : number) : Prop := Number.lt n (Num 0) = false.

(** The invariants of the data model on a document: the stock is not below
    zero and [unit_value] is above zero. *)
Definition validStock (d : Inventory.doc) : Prop :=
  notBelowZero (Inventory.stock d) ∧ Number.positive (Inventory.unit_value d).

(** The numeric fields hold numbers and no unit symbol is a key that an
    object literal inherits. *)
Definition numericItem (d : Inventory.doc) : Prop :=
  Number.isNum (Inventory.stock d)
  ∧ inherited (toLowerCase (Inventory.unit_type d)) = false.

Definition numericIngredient (ing : Ingredient.ingredient) : Prop :=
  Number.isNum (Ingredient.quantity ing)
  ∧ inherited (toLowerCase (Ingredient.unit ing)) = false.

(** ** Writes of a commit *)

(** The stock that [applyDeductions] leaves in a document: that of the last
    deduction naming it, if any. *)
Fixpoint lastWrite (ds : list deduction) (id : string) : option number :=
  match ds with
  | [] => None
  | e :: ds' =>
      match lastWrite ds' id with
      | Some s => Some s
      | None => if String.eqb id (itemId e) then Some (newStock e) else None
      end
  end.

Definition overwrite (s : option number) (d : option Inventory.doc)
  : option Inventory.doc :=
  match s with
  | Some s => Inventory.setStock s <$> d
  | None => d
  end.

(** The document that a production adds for a product not yet in stock. *)
Definition newFinishedGood (recipe : recipe) (quantityToProduce : number)
  : Inventory.doc :=
  {| Inventory.name := Recipe.name recipe.2;
     Inventory.unit_value := Num 1;
     Inventory.unit_type := "unidad";
     Inventory.stock := quantityToProduce;
     Inventory.type := "finished_good" |}.

(** What a confirmed production leaves of [inventory], document by
    document: the stock of the snapshot plus the produced quantity in the
    finished good that the snapshot has, or a new document for it; in a
    document that a deduction names, the stock of the last deduction naming
    it; and any other document as it was. *)
Definition committed (inventoryItems : list inventoryItem) (recipe : recipe)
    (quantityToProduce : number)
    (inventory inventory1 : gmap string Inventory.doc) : Prop :=
  let ds :=
    deductions
      (checkIngredients inventoryItems quantityToProduce
         (Recipe.ingredients recipe.2)) in
  match List.find (isNamed "finished_good" (Recipe.name recipe.2))
          inventoryItems with
  | Some finishedProduct =>
      ∀ j, inventory1 !! j
           = if String.eqb j finishedProduct.1
             then Inventory.setStock
                    (Number.add (Inventory.stock finishedProduct.2)
                       quantityToProduce) <$> inventory !! j
             else overwrite (lastWrite ds j) (inventory !! j)
  | None =>
      ∃ id, inventory !! id = None
            ∧ ∀ j, inventory1 !! j
                   = if String.eqb j id
                     then Some (newFinishedGood recipe quantityToProduce)
                     else overwrite (lastWrite ds j) (inventory !! j)
  end.

(** ** Worked cases *)

(** One bag of 500 g of flour, and a cake that takes 500 g. *)
Definition harina : Inventory.doc :=
  {| Inventory.name := "Harina"; Inventory.unit_value := Num 500;
     Inventory.unit_type := "g"; Inventory.stock := Num 1;
     Inventory.type := "raw_material" |}.

Definition oneBag : gmap string Inventory.doc := {[ "h1" := harina ]}.

Definition oneBagItems : list inventoryItem := [("h1", harina)].

Definition torta : recipe :=
  ("r1",
   {| Recipe.name := "Torta"; Recipe.type := "cake";
      Recipe.ingredients :=
        [ {| Ingredient.name := "harina"; Ingredient.quantity := Num 500;
             Ingredient.unit := "g" |} ] |}).

(** Two bags of flour. *)
Definition dosBolsas : Inventory.doc := Inventory.setStock (Num 2) harina.

(** A recipe saved without ingredients. *)
Definition agua : recipe :=
  ("r2",
   {| Recipe.name := "Agua"; Recipe.type := "personalizados";
      Recipe.ingredients := [] |}).

(** 150 g of flour on hand, and a bread that takes 100 g a unit. *)
Definition flour : Inventory.doc :=
  {| Inventory.name := "flour"; Inventory.unit_value := Num 150;
     Inventory.unit_type := "g"; Inventory.stock := Num 1;
     Inventory.type := "raw_material" |}.

Definition bread : recipe :=
  ("r3",
   {| Recipe.name := "Bread"; Recipe.type := "reposteria";
      Recipe.ingredients :=
        [ {| Ingredient.name := "Flour"; Ingredient.quantity := Num 100;
             Ingredient.unit := "g" |} ] |}).

(** Ten cakes in stock, and an order of five. *)
Definition tortas : Inventory.doc :=
  {| Inventory.name := "Torta"; Inventory.unit_value := Num 1;
     Inventory.unit_type := "unidad"; Inventory.stock := Num 10;
     Inventory.type := "finished_good" |}.

Definition pedido (status : string) : Order.doc :=
  {| Order.customerName := "Ana"; Order.orderType := "cake";
     Order.selectedRecipeId := Some "r1";
     Order.productDescription := EmptyString;
     Order.quantity := Num 5; Order.orderDate := "2025-06-01";
     Order.status := status |}.

(** * The forms and pages

    The other handlers of [src/App.js].  The built-in functions whose result
    they test ([parseFloat] and [parseInt] of a text, [toString] of a
    number) are parameters of the handlers that call them: every statement
    below holds whatever they return.  The state of a form is a record of
    the [useState] variables that the handler reads; a handler returns the
    message shown, the state of the form and the collection left. *)

Definition isNaN (n : number) : bool :=
  match n with
  | NaN => true
  | Num _ => false
  end.

(** [s.trim()], on the white space of ASCII. *)
Definition isWhiteSpace (c : ascii) : bool :=
  let n := nat_of_ascii c in
  (9 <=? n)%nat && (n <=? 13)%nat || (n =? 32)%nat.

Fixpoint trimStart (s : string) : string :=
  match s with
  | EmptyString => EmptyString
  | String c s' => if isWhiteSpace c then trimStart s' else s
  end.

Fixpoint trimEnd (s : string) : string :=
  match s with
  | EmptyString => EmptyString
  | String c s' =>
      match trimEnd s' with
      | EmptyString => if isWhiteSpace c then EmptyString
                       else String c EmptyString
      | t => String c t
      end
  end.

Definition trim (s : string) : string := trimEnd (trimStart s).

(** [!s] for a string: the empty string is falsy.  For an id that is
    [null] or a string, [isSet] above is the test [if (id)]. *)
Definition isEmpty (s : string) : bool := String.eqb s EmptyString.

(** [l.filter((x, i) => p(x, i))] and [l.map((x, i) => f(x, i))], the
    index counted from [i]. *)
Fixpoint filterFrom {A : Type} (p : A → nat → bool) (i : nat) (l : list A)
  : list A :=
  match l with
  | [] => []
  | x :: l' =>
      if p x i then x :: filterFrom p (S i) l' else filterFrom p (S i) l'
  end.

Fixpoint mapFrom {A B : Type} (f : A → nat → B) (i : nat) (l : list A)
  : list B :=
  match l with
  | [] => []
  | x :: l' => f x i :: mapFrom f (S i) l'
  end.

(** ** The inventory page (lines 356-669) *)

Module InventoryPage.

Record form : Type := Form {
  editingItemId : option string;
  newItemName : string;
  newItemUnitValue : string;
  newItemUnitType : string;
  newItemStock : string
}.

Definition resetForm : form :=
  {| editingItemId := None; newItemName := EmptyString;
     newItemUnitValue := EmptyString; newItemUnitType := "g";
     newItemStock := EmptyString |}.

Inductive saveOutcome : Type :=
| FieldsRequired
| InvalidNumbers
| Updated
| Added
| SaveFailed.

Inductive stockOutcome : Type :=
| InvalidStock
| StockWritten
| StockFailed.

Section Handlers.

Variable parseFloat : string → number.
Variable toString : number → string.

Definition handleEditItem (item : inventoryItem) : form :=
  {| editingItemId := Some item.1;
     newItemName := Inventory.name item.2;
     newItemUnitValue := toString (Inventory.unit_value item.2);
     newItemUnitType := Inventory.unit_type item.2;
     newItemStock := toString (Inventory.stock item.2) |}.

Definition handleAddOrUpdateItem (f : form)
    (inventory : gmap string Inventory.doc)
  : saveOutcome * form * gmap string Inventory.doc :=
  if isEmpty (trim (newItemName f)) || isEmpty (newItemUnitValue f)
     || isEmpty (trim (newItemUnitType f)) || isEmpty (newItemStock f)
  then (FieldsRequired, f, inventory)
  else
    let unitValue := parseFloat (newItemUnitValue f) in
    let stock := parseFloat (newItemStock f) in
    if isNaN unitValue || Number.le unitValue (Num 0)
       || isNaN stock || Number.lt stock (Num 0)
    then (InvalidNumbers, f, inventory)
    else
      let written :=
        {| Inventory.name := newItemName f;
           Inventory.unit_value := unitValue;
           Inventory.unit_type := newItemUnitType f;
           Inventory.stock := stock;
           Inventory.type := "raw_material" |} in
      match (if isSet (editingItemId f) then editingItemId f else None) with
      | Some id =>
          match updateDoc inventory id (λ _, written) with
          | Some inventory' => (Updated, resetForm, inventory')
          | None => (SaveFailed, f, inventory)
          end
      | None => (Added, resetForm, addDoc inventory written)
      end.

Definition handleStockChange (itemId newStockValue : string)
    (inventory : gmap string Inventory.doc)
  : stockOutcome * gmap string Inventory.doc :=
  let stock := parseFloat newStockValue in
  if isNaN stock || Number.lt stock (Num 0) then (InvalidStock, inventory)
  else
    match updateDoc inventory itemId (Inventory.setStock stock) with
    | Some inventory' => (StockWritten, inventory')
    | None => (StockFailed, inventory)
    end.

End Handlers.

(** [deleteDoc] of a document that does not exist is not an error. *)
Definition handleDeleteItem (confirm : bool) (id : string)
    (inventory : gmap string Inventory.doc) : gmap string Inventory.doc :=
  if confirm then delete id inventory else inventory.

(** The two tables of the page. *)
Definition rawMaterials (items : list inventoryItem) : list inventoryItem :=
  List.filter (λ item, String.eqb (Inventory.type item.2) "raw_material")
    items.

Definition finishedGoods (items : list inventoryItem) : list inventoryItem :=
  List.filter (λ item, String.eqb (Inventory.type item.2) "finished_good")
    items.

End InventoryPage.

(** ** The recipes page (lines 680-830) *)

Module RecipesPage.

(** The quantity of a row of the form: a number, or the empty string of a
    field left blank. *)
Inductive quantityInput : Type :=
| Typed (n : number)
| Blank.

(** [parseFloat(ing.quantity)]: the number itself, and [NaN] for the empty
    string. *)
Definition quantityOf (q : quantityInput) : number :=
  match q with
  | Typed n => parseFloat n
  | Blank => NaN
  end.

Record row : Type := Row {
  name : string;
  quantity : quantityInput;
  unit : string
}.

Record form : Type := Form {
  editingRecipeId : option string;
  newRecipeName : string;
  newRecipeType : string;
  newIngredients : list row
}.

Definition blankRow : row :=
  {| name := EmptyString; quantity := Blank; unit := "g" |}.

Definition resetForm : form :=
  {| editingRecipeId := None; newRecipeName := EmptyString;
     newRecipeType := "cookie"; newIngredients := [blankRow] |}.

(** The field that [handleIngredientChange] sets, with its value. *)
Inductive change : Type :=
| SetName (value : string)
| SetQuantity (value : quantityInput)
| SetUnit (value : string).

Definition applyChange (c : change) (ingredient : row) : row :=
  match c with
  | SetName v =>
      {| name := v; quantity := quantity ingredient;
         unit := unit ingredient |}
  | SetQuantity v =>
      {| name := name ingredient; quantity := v; unit := unit ingredient |}
  | SetUnit v =>
      {| name := name ingredient; quantity := quantity ingredient;
         unit := v |}
  end.

Definition setIngredients (l : list row) (f : form) : form :=
  {| editingRecipeId := editingRecipeId f; newRecipeName := newRecipeName f;
     newRecipeType := newRecipeType f; newIngredients := l |}.

Definition handleAddIngredient (f : form) : form :=
  setIngredients (newIngredients f ++ [blankRow]) f.

Definition handleRemoveIngredient (index : nat) (f : form) : form :=
  setIngredients
    (filterFrom (λ _ i, negb (i =? index)%nat) 0 (newIngredients f)) f.

Definition handleIngredientChange (index : nat) (c : change) (f : form)
  : form :=
  setIngredients
    (mapFrom (λ ingredient i,
                if (i =? index)%nat then applyChange c ingredient
                else ingredient)
       0 (newIngredients f)) f.

Definition toRow (ing : Ingredient.ingredient) : row :=
  {| name := Ingredient.name ing; quantity := Typed (Ingredient.quantity ing);
     unit := Ingredient.unit ing |}.

Definition handleEditRecipe (recipe : recipe) : form :=
  {| editingRecipeId := Some recipe.1;
     newRecipeName := Recipe.name recipe.2;
     newRecipeType := Recipe.type recipe.2;
     newIngredients :=
       if (0 <? length (Recipe.ingredients recipe.2))%nat
       then toRow <$> Recipe.ingredients recipe.2
       else [blankRow] |}.

Inductive saveOutcome : Type :=
| NameRequired
| NoValidIngredient
| MissingIngredients (names : list string)
| Updated
| Added
| SaveFailed.

(** The test of the filter: a name, a quantity above zero and a unit. *)
Definition isValidRow (ing : row) : bool :=
  negb (isEmpty (trim (name ing)))
  && Number.lt (Num 0) (quantityOf (quantity ing))
  && negb (isEmpty (trim (unit ing))).

Definition toIngredient (ing : row) : Ingredient.ingredient :=
  {| Ingredient.name := name ing;
     Ingredient.quantity := quantityOf (quantity ing);
     Ingredient.unit := unit ing |}.

Definition handleAddOrUpdateRecipe (f : form)
    (inventoryItems : list inventoryItem)
    (recipes : gmap string Recipe.doc)
  : saveOutcome * form * gmap string Recipe.doc :=
  if isEmpty (trim (newRecipeName f)) then (NameRequired, f, recipes)
  else
    let filteredIngredients := List.filter isValidRow (newIngredients f) in
    if (length filteredIngredients =? 0)%nat
    then (NoValidIngredient, f, recipes)
    else
      let missingIngredients :=
        List.filter
          (λ ing, negb (existsb (isNamed "raw_material" (name ing))
                          inventoryItems))
          filteredIngredients in
      if (0 <? length missingIngredients)%nat
      then (MissingIngredients (name <$> missingIngredients), f, recipes)
      else
        let written :=
          {| Recipe.name := newRecipeName f;
             Recipe.type := newRecipeType f;
             Recipe.ingredients := toIngredient <$> filteredIngredients |} in
        match (if isSet (editingRecipeId f) then editingRecipeId f else None) with
        | Some id =>
            match updateDoc recipes id (λ _, written) with
            | Some recipes' => (Updated, resetForm, recipes')
            | None => (SaveFailed, f, recipes)
            end
        | None => (Added, resetForm, addDoc recipes written)
        end.

Definition handleDeleteRecipe (confirm : bool) (id : string)
    (recipes : gmap string Recipe.doc) : gmap string Recipe.doc :=
  if confirm then delete id recipes else recipes.

End RecipesPage.

(** ** The sales-note page (lines 1122-1256) *)

Module SalesNotePage.

Record form : Type := Form {
  editingOrderId : option string;
  newCustomerName : string;
  newOrderType : string;
  selectedRecipeId : string;
  newProductDetails : string;
  newOrderQuantity : string;
  newOrderDate : string
}.

Definition resetForm : form :=
  {| editingOrderId := None; newCustomerName := EmptyString;
     newOrderType := "cake"; selectedRecipeId := EmptyString;
     newProductDetails := EmptyString; newOrderQuantity := EmptyString;
     newOrderDate := EmptyString |}.

Inductive saveOutcome : Type :=
| FieldsRequired
| InvalidQuantity
| Updated
| Added
| SaveFailed.

(** The inventory listener of the page keeps the finished goods. *)
Definition inventoryListener (itemsData : list inventoryItem)
  : list inventoryItem :=
  List.filter (λ item, String.eqb (Inventory.type item.2) "finished_good")
    itemsData.

Section Handlers.

Variable parseInt : string → number.
Variable toString : number → string.

(** [order.selectedRecipeId || ''] *)
Definition handleEditOrder (order : string * Order.doc) : form :=
  {| editingOrderId := Some order.1;
     newCustomerName := Order.customerName order.2;
     newOrderType := Order.orderType order.2;
     selectedRecipeId :=
       match Order.selectedRecipeId order.2 with
       | Some i => i
       | None => EmptyString
       end;
     newProductDetails := Order.productDescription order.2;
     newOrderQuantity := toString (Order.quantity order.2);
     newOrderDate := Order.orderDate order.2 |}.

Definition handleAddOrUpdateOrder (f : form)
    (salesOrders : gmap string Order.doc)
  : saveOutcome * form * gmap string Order.doc :=
  if isEmpty (trim (newCustomerName f)) || isEmpty (newOrderQuantity f)
     || isEmpty (newOrderDate f)
     || isEmpty (selectedRecipeId f) && isEmpty (trim (newProductDetails f))
  then (FieldsRequired, f, salesOrders)
  else
    let quantity := parseInt (newOrderQuantity f) in
    if isNaN quantity || Number.le quantity (Num 0)
    then (InvalidQuantity, f, salesOrders)
    else
      let orderData :=
        {| Order.customerName := newCustomerName f;
           Order.orderType := newOrderType f;
           Order.selectedRecipeId :=
             if isEmpty (selectedRecipeId f) then None
             else Some (selectedRecipeId f);
           Order.productDescription := newProductDetails f;
           Order.quantity := quantity;
           Order.orderDate := newOrderDate f;
           Order.status := "Pendiente" |} in
      match (if isSet (editingOrderId f) then editingOrderId f else None) with
      | Some id =>
          match updateDoc salesOrders id (λ _, orderData) with
          | Some salesOrders' => (Updated, resetForm, salesOrders')
          | None => (SaveFailed, f, salesOrders)
          end
      | None => (Added, resetForm, addDoc salesOrders orderData)
      end.

End Handlers.

Definition handleDeleteOrder (confirm : bool) (id : string)
    (salesOrders : gmap string Order.doc) : gmap string Order.doc :=
  if confirm then delete id salesOrders else salesOrders.

End SalesNotePage.

(** The name in the message of a re-opened order (line 1318),
    [selectedRecipeId ? recipes.find(r => r.id === selectedRecipeId)?.name
    : productDescription]: it is [undefined], here [None], when
    [selectedRecipeId] is set and the list has no recipe of that id.  The
    outcome [Reopened] does not carry the text of the message. *)
Definition reopenedOrderName (recipes : list recipe)
    (selectedRecipeId : option string) (productDescription : string)
  : option string :=
  if isSet selectedRecipeId then
    match List.find
            (λ r : recipe, bool_decide (Some r.1 = selectedRecipeId))
            recipes with
    | Some associatedRecipe => Some (Recipe.name associatedRecipe.2)
    | None => None
    end
  else Some productDescription.

(** ** The converter page (lines 1514-1545) *)

Module ConverterPage.

Definition converterUnitOptions : list string :=
  [ "g"; "kg"; "ml"; "lt"; "cc"; "unidad" ].

Inductive result : Type :=
| InvalidValue
| Converted (converted : number) (toUnit : string)
| Incompatible.

(** [value] is the number kept by the field; the text of the result shows
    [converted.toFixed(2)]. *)
Definition handleConvert (value : number) (fromUnit toUnit : string)
  : result :=
  let numericValue := parseFloat value in
  if isNaN numericValue || Number.lt numericValue (Num 0) then InvalidValue
  else
    match convertUnits numericValue fromUnit toUnit with
    | Some converted => Converted converted toUnit
    | None => Incompatible
    end.

End ConverterPage.

(** ** Notions used in the statements on the forms *)

(** A document of the inventory as the forms write it: a stock that is a
    number not below zero, and a [unit_value] above zero. *)
Definition validDoc (d : Inventory.doc) : Prop :=
  Number.nonneg (Inventory.stock d) ∧ Number.positive (Inventory.unit_value d).

(** [d'] is [d] but for its stock. *)
Definition sameButStock (d d' : Inventory.doc) : Prop :=
  d' = Inventory.setStock (Inventory.stock d') d.

(** Every document of [m] is in [m'], the same but for its stock. *)
Definition keepsDocuments (m m' : gmap string Inventory.doc) : Prop :=
  ∀ j d, m !! j = Some d → ∃ d', m' !! j = Some d' ∧ sameButStock d d'.

(** A parser of digit strings, for the worked cases: on them it agrees with
    [parseFloat] and with [parseInt]. *)
Fixpoint digitsValue (acc : Z) (s : string) : option Z :=
  match s with
  | EmptyString => Some acc
  | String c s' =>
      let n := nat_of_ascii c in
      if (48 <=? n)%nat && (n <=? 57)%nat
      then digitsValue (acc * 10 + Z.of_nat (n - 48)) s'
      else None
  end.

Definition parseDigits (s : string) : number :=
  match s with
  | EmptyString => NaN
  | _ => match digitsValue 0 s with
         | Some z => Num (inject_Z z)
         | None => NaN
         end
  end.


(** An ingredient as the form of the recipes page saves it against a
    snapshot: a name and a unit that are not blank, a quantity above zero,
    and a raw material of the snapshot with its name. *)
Definition savedIngredient (inventoryItems : list inventoryItem)
    (ing : Ingredient.ingredient) : Prop :=
  trim (Ingredient.name ing) ≠ EmptyString
  ∧ Number.positive (Ingredient.quantity ing)
  ∧ trim (Ingredient.unit ing) ≠ EmptyString
  ∧ ∃ item, In item inventoryItems
            ∧ isNamed "raw_material" (Ingredient.name ing) item = true.

(** An order as the form of the sales-note page saves it. *)
Definition savedOrder (d : Order.doc) : Prop :=
  Order.status d = "Pendiente"
  ∧ Number.positive (Order.quantity d)
  ∧ trim (Order.customerName d) ≠ EmptyString
  ∧ Order.orderDate d ≠ EmptyString
  ∧ (isSet (Order.selectedRecipeId d) = true
     ∨ trim (Order.productDescription d) ≠ EmptyString).

(** The two types of the documents of the inventory. *)
Definition knownType (d : Inventory.doc) : Prop :=
  Inventory.type d = "raw_material" ∨ Inventory.type d = "finished_good".

(** A worked case: a recipe that names the flour twice, 100 g and
    200 g. *)
Definition panDoble : recipe :=
  ("r7",
   {| Recipe.name := "Pan"; Recipe.type := "reposteria";
      Recipe.ingredients :=
        [ {| Ingredient.name := "harina"; Ingredient.quantity := Num 100;
             Ingredient.unit := "g" |};
          {| Ingredient.name := "Harina"; Ingredient.quantity := Num 200;
             Ingredient.unit := "g" |} ] |}).
(** * Properties *)

(** ** Numbers and strings *)

Lemma lt_Num (x y : Q) : Number.lt (Num x) (Num y) = false ↔ (y <= x)%Q.
Proof.
  simpl. rewrite negb_false_iff. apply Qle_bool_iff.
Qed.

Lemma le_Num (x y : Q) : Number.le (Num x) (Num y) = false ↔ (y < x)%Q.
Proof.
  simpl. split.
  - intros H. apply Qnot_le_lt. intros Hle.
    apply Qle_bool_iff in Hle. congruence.
  - intros H. destruct (Qle_bool x y) eqn:E; [|done].
    apply Qle_bool_iff in E. lra.
Qed.

Lemma lowerChar_idemp (c : ascii) : lowerChar (lowerChar c) = lowerChar c.
Proof.
  destruct c as [[] [] [] [] [] [] [] []]; reflexivity.
Qed.

Lemma toLowerCase_idemp (s : string) :
  toLowerCase (toLowerCase s) = toLowerCase s.
Proof.
  induction s as [|c s IH]; simpl; [done|].
  by rewrite lowerChar_idemp, IH.
Qed.

(** ** The table of [convertUnits] *)

Lemma conversionFactors_mass :
  conversionFactors !!! "mass"
  = ({[ "g" := 1%Q; "kg" := 1000%Q ]} : gmap string Q).
Proof. vm_compute. reflexivity. Qed.

Lemma conversionFactors_volume :
  conversionFactors !!! "volume"
  = ({[ "ml" := 1%Q; "lt" := 1000%Q; "cc" := 1%Q ]} : gmap string Q).
Proof. vm_compute. reflexivity. Qed.

Lemma conversionFactors_count :
  conversionFactors !!! "count" = ({[ "unidad" := 1%Q ]} : gmap string Q).
Proof. vm_compute. reflexivity. Qed.

(** [conversionFactors] holds the entries of the table and no other. *)
Lemma conversionFactors_closed :
  map_to_list (map_to_list <$> conversionFactors)
  = [ ("count", [("unidad", 1%Q)]);
      ("mass", [("g", 1%Q); ("kg", 1000%Q)]);
      ("volume", [("cc", 1%Q); ("ml", 1%Q); ("lt", 1000%Q)]) ].
Proof. vm_compute. reflexivity. Qed.

Ltac case_symbol u :=
  match goal with
  | |- context [String.eqb u ?k] => destruct (String.eqb_spec u k) as [->|?]
  end.

Lemma factorOf_Some (u : string) (c : category) (f : Q) :
  factorOf u = Some (c, f) →
  (u = "g" ∧ c = Mass ∧ f = 1%Q) ∨ (u = "kg" ∧ c = Mass ∧ f = 1000%Q)
  ∨ (u = "ml" ∧ c = Volume ∧ f = 1%Q) ∨ (u = "lt" ∧ c = Volume ∧ f = 1000%Q)
  ∨ (u = "cc" ∧ c = Volume ∧ f = 1%Q) ∨ (u = "unidad" ∧ c = Count ∧ f = 1%Q).
Proof.
  unfold factorOf, unitCategoryTable, assoc.
  repeat (case_symbol u; [intros [= <- <-]; naive_solver|]).
  discriminate.
Qed.

Lemma factorOf_None (u : string) :
  factorOf u = None →
  u ≠ "g" ∧ u ≠ "kg" ∧ u ≠ "ml" ∧ u ≠ "lt" ∧ u ≠ "cc" ∧ u ≠ "unidad".
Proof.
  unfold factorOf, unitCategoryTable, assoc.
  repeat (case_symbol u; [discriminate|]).
  naive_solver.
Qed.

(** Of the twelve inherited keys, lower-casing leaves two. *)
Lemma inherited_toLowerCase (u : string) :
  inherited (toLowerCase u) = true →
  toLowerCase u = "constructor" ∨ toLowerCase u = "__proto__".
Proof.
  intros H. unfold inherited, objectPrototype in H. simpl in H.
  pose proof (toLowerCase_idemp u) as Hfix.
  repeat (apply orb_prop in H as [H|H];
          [apply String.eqb_eq in H;
           first [ by left | by right | by rewrite H in Hfix ]|]).
  discriminate.
Qed.

(** For a key that is not inherited, [categoryOf] reads the table. *)
Lemma categoryOf_plain (u : string) :
  inherited u = false →
  categoryOf u = match factorOf u with
                 | Some (c, _) => categoryName c
                 | None => EmptyString
                 end.
Proof.
  intros Hu. unfold categoryOf, getProperty.
  rewrite conversionFactors_mass, conversionFactors_volume,
    conversionFactors_count, Hu.
  destruct (factorOf u) as [[c f]|] eqn:E.
  - apply factorOf_Some in E.
    destruct E as [E|[E|[E|[E|[E|E]]]]]; destruct E as (-> & -> & ->);
      vm_compute; reflexivity.
  - apply factorOf_None in E. destruct E as (? & ? & ? & ? & ? & ?).
    rewrite !lookup_insert_ne, !lookup_singleton_ne by done. reflexivity.
Qed.

(** ** convertUnits *)

(** Two distinct symbols of one category:
    [value * factor(from) / factor(to)]. *)
Lemma convertUnits_same_category (v : Q) (u w : string) (c : category)
    (f g : Q) :
  factorOf u = Some (c, f) → factorOf w = Some (c, g) → u ≠ w →
  convertUnits (Num v) u w = Some (Num (v * f / g)).
Proof.
  intros Hu Hw Hne. destruct v as [n d].
  apply factorOf_Some in Hu. apply factorOf_Some in Hw.
  destruct Hu as [E|[E|[E|[E|[E|E]]]]]; destruct E as (-> & -> & ->);
    destruct Hw as [E|[E|[E|[E|[E|E]]]]]; destruct E as (-> & ? & ->);
    try discriminate; try (exfalso; by apply Hne);
    vm_compute; reflexivity.
Qed.

(** Symbols that differ after lower-casing, neither of them an inherited key:
    the conversion is refused when a symbol is not in the table or when the
    categories differ. *)
Lemma convertUnits_incompatible (v : number) (u w : string) :
  toLowerCase u ≠ toLowerCase w →
  inherited (toLowerCase u) = false → inherited (toLowerCase w) = false →
  (factorOf (toLowerCase u) = None ∨ factorOf (toLowerCase w) = None
   ∨ fst <$> factorOf (toLowerCase u) ≠ fst <$> factorOf (toLowerCase w)) →
  convertUnits v u w = None.
Proof.
  intros Hne Hu Hw H. unfold convertUnits.
  apply String.eqb_neq in Hne. rewrite Hne.
  rewrite (categoryOf_plain _ Hu), (categoryOf_plain _ Hw).
  destruct (factorOf (toLowerCase u)) as [[c f]|],
           (factorOf (toLowerCase w)) as [[c' g]|]; simpl in *;
    try reflexivity.
  - destruct H as [H|[H|H]]; try discriminate.
    destruct c, c'; try reflexivity; by destruct H.
  - by destruct c.
  - by destruct c'.
Qed.

(** [convertUnits] away from the inherited keys. *)
Lemma convertUnits_plain (v : number) (u w : string) :
  inherited (toLowerCase u) = false → inherited (toLowerCase w) = false →
  convertUnits v u w =
    if String.eqb (toLowerCase u) (toLowerCase w) then Some v
    else match factorOf (toLowerCase u), factorOf (toLowerCase w) with
         | Some (c, f), Some (c', g) =>
             if sameCategory c c'
             then Some (Number.div (Number.mul v (Num f)) (Num g))
             else None
         | _, _ => None
         end.
Proof.
  intros Hu Hw. unfold convertUnits.
  destruct (String.eqb _ _) eqn:Hne; [done|].
  rewrite (categoryOf_plain _ Hu), (categoryOf_plain _ Hw).
  clear Hu Hw.
  remember (toLowerCase u) as u' eqn:Eu. remember (toLowerCase w) as w' eqn:Ew.
  clear Eu Ew u w.
  destruct (factorOf u') as [[c f]|] eqn:Fu, (factorOf w') as [[c' g]|] eqn:Fw.
  - apply factorOf_Some in Fu. apply factorOf_Some in Fw.
    destruct Fu as [E|[E|[E|[E|[E|E]]]]]; destruct E as (-> & -> & ->);
      destruct Fw as [E|[E|[E|[E|[E|E]]]]]; destruct E as (-> & -> & ->);
      try discriminate Hne; destruct v as [[n d]|]; vm_compute; reflexivity.
  - by destruct c.
  - by destruct c'.
  - reflexivity.
Qed.

Lemma convertUnits_isNum (v r : number) (u w : string) :
  inherited (toLowerCase u) = false → inherited (toLowerCase w) = false →
  Number.isNum v → convertUnits v u w = Some r → Number.isNum r.
Proof.
  intros Hu Hw Hv. rewrite (convertUnits_plain _ _ _ Hu Hw).
  destruct (String.eqb _ _); [by intros [= <-]|].
  destruct (factorOf (toLowerCase u)) as [[c f]|] eqn:Fu; [|done].
  destruct (factorOf (toLowerCase w)) as [[c' g]|] eqn:Fw; [|done].
  destruct (sameCategory c c'); [|done]. intros [= <-].
  destruct v as [x|]; [|done].
  apply factorOf_Some in Fw.
  destruct Fw as [E|[E|[E|[E|[E|E]]]]]; destruct E as (_ & _ & ->); exact I.
Qed.

Example convertUnits_g_kg :
  ∃ r, convertUnits (Num 100) "g" "kg" = Some (Num r) ∧ (r == 1 # 10)%Q.
Proof. eexists. split; [vm_compute; reflexivity | reflexivity]. Qed.

Example convertUnits_lt_ml :
  ∃ r, convertUnits (Num 1) "lt" "ml" = Some (Num r) ∧ (r == 1000)%Q.
Proof. eexists. split; [vm_compute; reflexivity | reflexivity]. Qed.

Example convertUnits_g_ml : convertUnits (Num 5) "g" "ml" = None.
Proof. vm_compute. reflexivity. Qed.

(** C4.  The conversion table is Mass{g, kg}, Volume{ml, lt, cc},
    Count{unidad} and unknown symbols are meant to be refused; but the
    category of a symbol is found with a truthiness test on a property
    lookup, which an inherited key passes.  [convertUnits(5, 'constructor',
    'g')] puts 'constructor' in the mass category and returns [NaN], not
    the [null] of an incompatible conversion. *)
Theorem convertUnits_inherited_key :
  factorOf (toLowerCase "constructor") = None
  ∧ toLowerCase "constructor" ≠ toLowerCase "g"
  ∧ categoryOf (toLowerCase "constructor") = "mass"
  ∧ convertUnits (Num 5) "constructor" "g" = Some NaN.
Proof. repeat split; try discriminate; vm_compute; reflexivity. Qed.

(** C5.  [convertUnits(v, u, u)] is [v], for every value and every symbol,
    in the table or not. *)
Theorem convertUnits_identity (v : number) (u : string) :
  convertUnits v u u = Some v.
Proof.
  unfold convertUnits. by rewrite String.eqb_refl.
Qed.

(** C10.  The symbols are lower-cased before they are compared and before
    they are looked up: the result for case variants [U], [W] of [u], [w] is
    the result for [u], [w]; so [convertUnits(v, "KG", "g")] is [1000 * v] and
    [convertUnits(v, "G", "g")] is [v]. *)
Theorem convertUnits_case_insensitive (v : number) (U W u w : string) :
  toLowerCase U = toLowerCase u → toLowerCase W = toLowerCase w →
  convertUnits v U W = convertUnits v u w
  ∧ convertUnits v U W = convertUnits v (toLowerCase U) (toLowerCase W)
  ∧ (∀ x : Q, ∃ r, convertUnits (Num x) "KG" "g" = Some (Num r)
                   ∧ (r == 1000 * x)%Q)
  ∧ convertUnits v "G" "g" = Some v.
Proof.
  intros HU HW. split; [|split; [|split]].
  - unfold convertUnits. by rewrite HU, HW.
  - unfold convertUnits. by rewrite !toLowerCase_idemp.
  - intros x. exists (x * 1000 / 1)%Q. split; [|field].
    by apply (convertUnits_same_category x "kg" "g" Mass).
  - reflexivity.
Qed.

Lemma convertUnits_case_insensitive_witness :
  convertUnits (Num 3) "Kg" "ML" = convertUnits (Num 3) "kG" "ml".
Proof.
  apply (convertUnits_case_insensitive (Num 3) "Kg" "ML" "kG" "ml");
    reflexivity.
Defined.

(** ** The plan of a production *)

Section Planning.

Variable inventoryItems : list inventoryItem.
Variable quantityToProduce : number.

Let step := checkIngredient inventoryItems quantityToProduce.
Let assess' := assess inventoryItems quantityToProduce.

(** One iteration against the assessment of its ingredient. *)
Lemma checkIngredient_assess (p : planning) (ing : Ingredient.ingredient) :
  shortageMessages (step p ing)
  = shortageMessages p ++ shortagesOf [assess' ing]
  ∧ canProduce (step p ing)
    = canProduce p && bool_decide (shortagesOf [assess' ing] = [])
  ∧ (shortagesOf [assess' ing] = [] →
     deductions (step p ing) = deductions p ++ entriesOf [assess' ing]).
Proof.
  unfold step, assess', checkIngredient, assess, parseFloat.
  destruct (List.find _ _) as [item|]; simpl.
  - destruct (convertUnits _ _ _) as [required|]; simpl.
    + destruct (Number.lt _ _); simpl.
      * by rewrite andb_false_r.
      * by rewrite app_nil_r, andb_true_r.
    + by rewrite andb_false_r.
  - by rewrite andb_false_r.
Qed.

(** The loop against the assessments of all the ingredients. *)
Lemma fold_checkIngredient (ings : list Ingredient.ingredient) (p : planning) :
  let p' := fold_left step ings p in
  shortageMessages p'
  = shortageMessages p ++ shortagesOf (map assess' ings)
  ∧ canProduce p'
    = canProduce p && bool_decide (shortagesOf (map assess' ings) = [])
  ∧ (canProduce p' = true →
     deductions p' = deductions p ++ entriesOf (map assess' ings)).
Proof.
  revert p. induction ings as [|ing ings IH]; intros p.
  - simpl. rewrite !app_nil_r, andb_true_r. done.
  - destruct (IH (step p ing)) as (IHs & IHc & IHd).
    destruct (checkIngredient_assess p ing) as (Hs & Hc & Hd).
    assert (Hsh : shortagesOf (map assess' (ing :: ings))
              = shortagesOf [assess' ing] ++ shortagesOf (map assess' ings))
      by (simpl; by destruct (assess' ing)).
    assert (Hen : entriesOf (map assess' (ing :: ings))
              = entriesOf [assess' ing] ++ entriesOf (map assess' ings))
      by (simpl; by destruct (assess' ing)).
    cbv zeta. rewrite Hsh, Hen. simpl fold_left.
    split; [|split].
    + by rewrite IHs, Hs, app_assoc.
    + rewrite IHc, Hc, <- andb_assoc. f_equal.
      destruct (shortagesOf [assess' ing]), (shortagesOf (map assess' ings));
        reflexivity.
    + intros Hp. rewrite (IHd Hp).
      rewrite IHc, Hc in Hp.
      apply andb_prop in Hp as [Hp _]. apply andb_prop in Hp as [_ Hp].
      apply bool_decide_eq_true in Hp.
      by rewrite (Hd Hp), app_assoc.
Qed.

End Planning.

Lemma checkIngredients_plan (inventoryItems : list inventoryItem)
    (quantityToProduce : number) (ings : list Ingredient.ingredient) :
  let p := checkIngredients inventoryItems quantityToProduce ings in
  let results := map (assess inventoryItems quantityToProduce) ings in
  shortageMessages p = shortagesOf results
  ∧ canProduce p = bool_decide (shortagesOf results = [])
  ∧ (canProduce p = true → deductions p = entriesOf results).
Proof.
  apply (fold_checkIngredient inventoryItems quantityToProduce ings
           {| canProduce := true; shortageMessages := []; deductions := [] |}).
Qed.

Lemma assess_inr (inventoryItems : list inventoryItem)
    (quantityToProduce : number) (ing : Ingredient.ingredient) (e : deduction) :
  assess inventoryItems quantityToProduce ing = inr e →
  entryFor inventoryItems quantityToProduce ing e.
Proof.
  unfold assess, entryFor.
  destruct (List.find _ _) as [item|] eqn:Hfind; [|done].
  destruct (convertUnits _ _ _) as [required|] eqn:Hconv; [|done].
  simpl. destruct (Number.lt _ _) eqn:Hlt; [done|].
  intros [= <-]. exists item, required. simpl. by repeat split.
Qed.

Lemma entriesOf_all (A : Type) (f : A → shortage + deduction) (l : list A) :
  shortagesOf (map f l) = [] →
  Forall2 (λ a e, f a = inr e) l (entriesOf (map f l)).
Proof.
  induction l as [|a l IH]; simpl; [constructor|].
  destruct (f a) as [s|e] eqn:E; [done|].
  intros H. constructor; [done|]. by apply IH.
Qed.

(** C3.  For a quantity above zero the loop assesses every ingredient: its
    messages are the shortages of all the ingredients, in order (an
    ingredient that is not found, one whose unit cannot be converted, one
    whose stock is short).  With a shortage, the handler shows the whole
    list and leaves the inventory as it is; with none, there is one
    deduction entry per ingredient, holding
    [(availableBase - requiredBase) / unit_value]. *)
Theorem plan_evaluates_every_ingredient
    (inventoryItems : list inventoryItem) (confirm : bool) (recipe : recipe)
    (quantityToProduce : number) (inventory : gmap string Inventory.doc) :
  Number.le quantityToProduce (Num 0) = false →
  let ingredients := Recipe.ingredients recipe.2 in
  let p := checkIngredients inventoryItems quantityToProduce ingredients in
  shortageMessages p
  = shortagesOf (map (assess inventoryItems quantityToProduce) ingredients)
  ∧ match plan inventoryItems quantityToProduce ingredients with
    | ShortageReport shortages =>
        shortages ≠ []
        ∧ shortages = shortageMessages p
        ∧ handleConfirmProduction true inventoryItems confirm recipe
            quantityToProduce inventory
          = (Shortages shortages, inventory)
    | DeductionPlan entries =>
        canProduce p = true
        ∧ shortageMessages p = []
        ∧ deductions p = entries
        ∧ Forall2 (entryFor inventoryItems quantityToProduce)
            ingredients entries
        ∧ handleConfirmProduction true inventoryItems false recipe
            quantityToProduce inventory
          = (Declined, inventory)
    end.
Proof.
  intros Hq ingredients p.
  destruct (checkIngredients_plan inventoryItems quantityToProduce ingredients)
    as (Hs & Hc & Hd).
  fold p in Hs, Hc, Hd. split; [exact Hs|].
  unfold plan, handleConfirmProduction. fold ingredients. fold p.
  rewrite Hq. simpl negb. cbv iota.
  destruct (shortagesOf _) as [|s l] eqn:E.
  - rewrite bool_decide_eq_true_2 in Hc by done.
    rewrite Hc. repeat split; try done.
    + by apply Hd.
    + eapply Forall2_impl; [by apply entriesOf_all|].
      intros ing e. apply assess_inr.
  - rewrite bool_decide_eq_false_2 in Hc by done.
    rewrite Hc, Hs. done.
Qed.

(** ** Stock values kept by the writes *)

Section StockInvariant.

Variable P : number → Prop.

Lemma updateDoc_setStock_satisfies
    (inventory inventory' : gmap string Inventory.doc)
    (id : string) (s : number) :
  stocksSatisfy P inventory → P s →
  updateDoc inventory id (Inventory.setStock s) = Some inventory' →
  stocksSatisfy P inventory'.
Proof.
  unfold updateDoc. intros Hinv Hs.
  destruct (inventory !! id) as [d|]; [|done].
  intros [= <-]. by apply map_Forall_insert_2.
Qed.

Lemma applyDeductions_satisfies (ds : list deduction)
    (inventory : gmap string Inventory.doc) :
  stocksSatisfy P inventory → Forall (λ e, P (newStock e)) ds →
  stocksSatisfy P (applyDeductions ds inventory).2.
Proof.
  revert inventory. induction ds as [|e ds IH]; intros inventory Hinv Hds.
  - exact Hinv.
  - apply Forall_cons in Hds as [He Hds]. simpl.
    destruct (updateDoc _ _ _) as [inventory'|] eqn:E; [|exact Hinv].
    apply IH; [|exact Hds].
    by eapply updateDoc_setStock_satisfies.
Qed.

Lemma addDoc_satisfies (inventory : gmap string Inventory.doc)
    (d : Inventory.doc) :
  stocksSatisfy P inventory → P (Inventory.stock d) →
  stocksSatisfy P (addDoc inventory d).
Proof.
  intros Hinv Hd. by apply map_Forall_insert_2.
Qed.

(** The production handler keeps [P] when the values it writes have it. *)
Lemma handleConfirmProduction_satisfies (ready confirm : bool)
    (inventoryItems : list inventoryItem) (recipe : recipe)
    (quantityToProduce : number) (inventory : gmap string Inventory.doc) :
  let p := checkIngredients inventoryItems quantityToProduce
             (Recipe.ingredients recipe.2) in
  stocksSatisfy P inventory →
  (canProduce p = true → Forall (λ e, P (newStock e)) (deductions p)) →
  (∀ finishedProduct,
     List.find (isNamed "finished_good" (Recipe.name recipe.2))
       inventoryItems = Some finishedProduct →
     P (Number.add (Inventory.stock finishedProduct.2) quantityToProduce)) →
  (Number.le quantityToProduce (Num 0) = false → P quantityToProduce) →
  stocksSatisfy P
    (handleConfirmProduction ready inventoryItems confirm recipe
       quantityToProduce inventory).2.
Proof.
  intros p Hinv Hd Hf Hq. unfold handleConfirmProduction. fold p.
  destruct ready; [|exact Hinv]. simpl negb. cbv iota.
  destruct (Number.le _ _); [exact Hinv|].
  destruct (canProduce p); [|exact Hinv]. simpl negb. cbv iota.
  destruct confirm; [|exact Hinv]. simpl negb. cbv iota.
  pose proof (applyDeductions_satisfies (deductions p) inventory Hinv
                (Hd eq_refl)) as Happ.
  destruct (applyDeductions _ _) as [[] inventory']; simpl in Happ;
    [|exact Happ].
  destruct (List.find _ _) as [finishedProduct|].
  - destruct (updateDoc _ _ _) as [inventory''|] eqn:E; [|exact Happ].
    simpl. eapply updateDoc_setStock_satisfies; [exact Happ| |exact E].
    by apply Hf.
  - simpl. apply addDoc_satisfies; [exact Happ|]. simpl. by apply Hq.
Qed.

(** The order handler keeps [P] when the value it writes has it. *)
Lemma handleChangeOrderStatus_satisfies (ready confirm : bool)
    (inventoryItems : list inventoryItem) (recipes : list recipe)
    (orderId currentStatus : string) (selectedRecipeId : option string)
    (productDescription : string) (quantity : number)
    (inventory : gmap string Inventory.doc)
    (salesOrders : gmap string Order.doc) :
  stocksSatisfy P inventory →
  (∀ finishedProduct,
     In finishedProduct inventoryItems →
     Number.lt (Inventory.stock finishedProduct.2) quantity = false →
     P (Number.sub (Inventory.stock finishedProduct.2) quantity)) →
  stocksSatisfy P
    (handleChangeOrderStatus ready inventoryItems recipes confirm orderId
       currentStatus selectedRecipeId productDescription quantity
       inventory salesOrders).1.2.
Proof.
  intros Hinv Hf. unfold handleChangeOrderStatus.
  destruct ready; [|exact Hinv]. simpl negb. cbv iota.
  destruct (String.eqb (if String.eqb currentStatus _ then _ else _) _).
  - destruct (List.find _ _) as [finishedProduct|] eqn:Efind; [|exact Hinv].
    apply find_some in Efind as [Hin _].
    destruct (Number.lt _ _) eqn:Hlt; [exact Hinv|].
    destruct confirm; [|exact Hinv]. simpl negb. cbv iota.
    destruct (updateDoc inventory _ _) as [inventory'|] eqn:E;
      [|exact Hinv].
    assert (stocksSatisfy P inventory') as Hinv'.
    { eapply updateDoc_setStock_satisfies; [exact Hinv| |exact E].
      by apply Hf. }
    by destruct (updateDoc salesOrders _ _).
  - destruct confirm; [|exact Hinv]. simpl negb. cbv iota.
    by destruct (updateDoc salesOrders _ _).
Qed.

End StockInvariant.

(** ** No stock below zero *)

Lemma nonneg_iff (n : number) :
  Number.nonneg n ↔ Number.isNum n ∧ notBelowZero n.
Proof.
  destruct n as [x|]; simpl; [|tauto].
  unfold notBelowZero. rewrite lt_Num. tauto.
Qed.

Lemma stocksSatisfy_nonneg (inventory : gmap string Inventory.doc) :
  stocksSatisfy Number.isNum inventory → stocksSatisfy notBelowZero inventory →
  stocksSatisfy Number.nonneg inventory.
Proof.
  intros Hn Hz id d Hd. apply nonneg_iff. split; [by eapply Hn|by eapply Hz].
Qed.

Lemma newStock_notBelowZero (s u r : number) :
  Number.positive u → Number.lt (Number.mul s u) r = false →
  notBelowZero (Number.div (Number.sub (Number.mul s u) r) u).
Proof.
  destruct s as [s|], u as [u|], r as [r|]; simpl; try done.
  intros Hu Hlt. apply negb_false_iff, Qle_bool_iff in Hlt.
  destruct (Qeq_bool u 0) eqn:E; [done|].
  apply lt_Num. apply Qle_shift_div_l; [exact Hu|]. lra.
Qed.

Lemma newStock_isNum (s u r : number) :
  Number.isNum s → Number.positive u → Number.isNum r →
  Number.isNum (Number.div (Number.sub (Number.mul s u) r) u).
Proof.
  destruct s as [s|], u as [u|], r as [r|]; simpl; try done.
  intros _ Hu _. destruct (Qeq_bool u 0) eqn:E; [|done].
  apply Qeq_bool_iff in E. lra.
Qed.

Lemma produced_notBelowZero (s q : number) :
  notBelowZero s → Number.le q (Num 0) = false →
  notBelowZero q ∧ notBelowZero (Number.add s q).
Proof.
  destruct s as [s|], q as [q|]; try done;
    unfold notBelowZero; simpl Number.add;
    rewrite ?lt_Num, ?le_Num; intros Hs Hq; split; (done || lra).
Qed.

Lemma sold_notBelowZero (s quantity : number) :
  Number.lt s quantity = false → notBelowZero (Number.sub s quantity).
Proof.
  destruct s as [s|], quantity as [q|]; try done.
  unfold notBelowZero. simpl Number.sub. rewrite !lt_Num. intros H. lra.
Qed.

(** A property of every entry of the plan holds of every deduction that the
    handler goes on to write. *)
Lemma deductions_Forall (inventoryItems : list inventoryItem)
    (quantityToProduce : number) (ings : list Ingredient.ingredient)
    (R : deduction → Prop) :
  (∀ ing e, In ing ings → entryFor inventoryItems quantityToProduce ing e →
            R e) →
  let p := checkIngredients inventoryItems quantityToProduce ings in
  canProduce p = true → Forall R (deductions p).
Proof.
  intros HR p Hp.
  destruct (checkIngredients_plan inventoryItems quantityToProduce ings)
    as (_ & Hc & Hd).
  fold p in Hc, Hd. rewrite (Hd Hp). rewrite Hp in Hc.
  symmetry in Hc. apply bool_decide_eq_true in Hc.
  pose proof (entriesOf_all _ _ ings Hc) as Hall. clear Hc Hd Hp p.
  induction Hall as [|ing e ings es He Hall IH]; constructor.
  - apply (HR ing); [by left|]. by apply assess_inr.
  - apply IH. intros ing' e' Hin. apply HR. by right.
Qed.

Section NoStockBelowZero.

Variables (ready confirm : bool).
Variables (inventoryItems : list inventoryItem) (recipes : list recipe).
Variables (inventory : gmap string Inventory.doc).
Variables (salesOrders : gmap string Order.doc).

Hypothesis inventory_valid : stocksSatisfy notBelowZero inventory.
Hypothesis snapshot_valid :
  Forall (λ item : inventoryItem, validStock item.2) inventoryItems.

Lemma production_notBelowZero (recipe : recipe) (quantityToProduce : number) :
  stocksSatisfy notBelowZero
    (handleConfirmProduction ready inventoryItems confirm recipe
       quantityToProduce inventory).2.
Proof.
  destruct (Number.le quantityToProduce (Num 0)) eqn:Hq.
  { unfold handleConfirmProduction. rewrite Hq. by destruct ready. }
  apply handleConfirmProduction_satisfies; [done| | |].
  - apply deductions_Forall.
    intros ing e _ (item & required & Hfind & _ & Hlt & _ & ->).
    apply find_some in Hfind as [Hin _].
    rewrite Forall_forall in snapshot_valid.
    apply newStock_notBelowZero; [|exact Hlt].
    apply (snapshot_valid item). by apply list_elem_of_In.
  - intros fp Hfind. apply find_some in Hfind as [Hin _].
    rewrite Forall_forall in snapshot_valid.
    apply produced_notBelowZero; [|exact Hq].
    apply (snapshot_valid fp). by apply list_elem_of_In.
  - intros _. by apply (produced_notBelowZero (Num 0)).
Qed.

Lemma order_notBelowZero (orderId currentStatus : string)
    (selectedRecipeId : option string) (productDescription : string)
    (quantity : number) :
  stocksSatisfy notBelowZero
    (handleChangeOrderStatus ready inventoryItems recipes confirm orderId
       currentStatus selectedRecipeId productDescription quantity
       inventory salesOrders).1.2.
Proof.
  apply handleChangeOrderStatus_satisfies; [done|].
  intros fp _ Hlt. by apply sold_notBelowZero.
Qed.

End NoStockBelowZero.

Section StockIsNumber.

Variables (ready confirm : bool).
Variables (inventoryItems : list inventoryItem) (recipes : list recipe).
Variables (inventory : gmap string Inventory.doc).
Variables (salesOrders : gmap string Order.doc).

Hypothesis inventory_numeric : stocksSatisfy Number.isNum inventory.
Hypothesis snapshot_valid :
  Forall (λ item : inventoryItem, validStock item.2) inventoryItems.
Hypothesis snapshot_numeric :
  Forall (λ item : inventoryItem, numericItem item.2) inventoryItems.

Lemma production_isNum (recipe : recipe) (quantityToProduce : number) :
  Forall numericIngredient (Recipe.ingredients recipe.2) →
  Number.isNum quantityToProduce →
  stocksSatisfy Number.isNum
    (handleConfirmProduction ready inventoryItems confirm recipe
       quantityToProduce inventory).2.
Proof.
  intros Hings Hq. rewrite Forall_forall in Hings.
  rewrite Forall_forall in snapshot_valid, snapshot_numeric.
  apply handleConfirmProduction_satisfies; [done| | |done].
  - apply deductions_Forall.
    intros ing e Hing (item & required & Hfind & Hconv & _ & _ & ->).
    apply find_some in Hfind as [Hin _]. apply list_elem_of_In in Hin.
    apply list_elem_of_In in Hing.
    destruct (snapshot_valid item Hin) as [_ Hu].
    destruct (snapshot_numeric item Hin) as [Hs Hty].
    destruct (Hings ing Hing) as [Hqty Hunit].
    apply newStock_isNum; [exact Hs|exact Hu|].
    apply (convertUnits_isNum _ _ _ _ Hunit Hty) in Hconv; [done|].
    by destruct (Ingredient.quantity ing), quantityToProduce.
  - intros fp Hfind. apply find_some in Hfind as [Hin _].
    apply list_elem_of_In in Hin.
    destruct (snapshot_numeric fp Hin) as [Hs _].
    by destruct (Inventory.stock fp.2), quantityToProduce.
Qed.

Lemma order_isNum (orderId currentStatus : string)
    (selectedRecipeId : option string) (productDescription : string)
    (quantity : number) :
  Number.isNum quantity →
  stocksSatisfy Number.isNum
    (handleChangeOrderStatus ready inventoryItems recipes confirm orderId
       currentStatus selectedRecipeId productDescription quantity
       inventory salesOrders).1.2.
Proof.
  intros Hq. rewrite Forall_forall in snapshot_numeric.
  apply handleChangeOrderStatus_satisfies; [done|].
  intros fp Hin _. apply list_elem_of_In in Hin.
  destruct (snapshot_numeric fp Hin) as [Hs _].
  by destruct (Inventory.stock fp.2), quantity.
Qed.

End StockIsNumber.


(** ** Writes of a commit *)

Lemma updateDoc_lookup {D : Type} (collection collection' : gmap string D)
    (id : string) (update : D → D) (j : string) :
  updateDoc collection id update = Some collection' →
  collection' !! j
  = if String.eqb j id then update <$> collection !! j else collection !! j.
Proof.
  unfold updateDoc. destruct (collection !! id) as [d|] eqn:E; [|done].
  intros [= <-]. destruct (String.eqb_spec j id) as [->|Hne].
  - by rewrite lookup_insert_eq, E.
  - by rewrite lookup_insert_ne.
Qed.

Lemma updateDoc_is_Some {D : Type} (collection : gmap string D)
    (id : string) (update : D → D) :
  is_Some (updateDoc collection id update) ↔ is_Some (collection !! id).
Proof.
  unfold updateDoc. destruct (collection !! id); split; intros [? ?]; eauto;
    done.
Qed.

(** A successful run of the deductions, document by document. *)
Lemma applyDeductions_lookup (ds : list deduction)
    (inventory inventory' : gmap string Inventory.doc) (id : string) :
  applyDeductions ds inventory = (true, inventory') →
  inventory' !! id = overwrite (lastWrite ds id) (inventory !! id).
Proof.
  revert inventory. induction ds as [|e ds IH]; intros inventory; simpl.
  - by intros [= <-].
  - destruct (updateDoc _ _ _) as [inventory1|] eqn:E; [|done].
    intros Happ. rewrite (IH _ Happ).
    rewrite (updateDoc_lookup _ _ _ _ id E).
    destruct (lastWrite ds id) as [s|]; simpl.
    + destruct (String.eqb id (itemId e)); [|done].
      by destruct (inventory !! id).
    + by destruct (String.eqb id (itemId e)).
Qed.

(** The deductions go through exactly when the documents they name exist. *)
Lemma applyDeductions_success (ds : list deduction)
    (inventory : gmap string Inventory.doc) :
  (applyDeductions ds inventory).1 = true
  ↔ Forall (λ e, is_Some (inventory !! itemId e)) ds.
Proof.
  revert inventory. induction ds as [|e ds IH]; intros inventory; simpl.
  - split; [constructor|done].
  - rewrite Forall_cons, <- updateDoc_is_Some.
    destruct (updateDoc _ _ _) as [inventory1|] eqn:E.
    + rewrite IH. split.
      * intros H. split; [by eexists|].
        eapply Forall_impl; [exact H|]. intros e' [d Hd]. simpl in Hd.
        rewrite (updateDoc_lookup _ _ _ _ _ E) in Hd.
        destruct (String.eqb _ _); [|by eexists].
        by destruct (inventory !! itemId e').
      * intros [_ H]. eapply Forall_impl; [exact H|]. intros e' [d Hd].
        simpl. rewrite (updateDoc_lookup _ _ _ _ _ E).
        destruct (String.eqb _ _); rewrite Hd; by eexists.
    + simpl. split; [done|]. intros [[? H] _]. by rewrite E in H.
Qed.

Lemma applyDeductions_true (ds : list deduction)
    (inventory : gmap string Inventory.doc) :
  Forall (λ e, is_Some (inventory !! itemId e)) ds →
  ∃ inventory', applyDeductions ds inventory = (true, inventory').
Proof.
  intros H. apply applyDeductions_success in H.
  destruct (applyDeductions ds inventory) as [b inventory'].
  simpl in H. subst b. by eexists.
Qed.

(** What a confirmed production went through. *)
Lemma handleConfirmProduction_Confirmed (ready confirm : bool)
    (inventoryItems : list inventoryItem) (recipe : recipe)
    (quantityToProduce : number)
    (inventory inventory1 : gmap string Inventory.doc) :
  handleConfirmProduction ready inventoryItems confirm recipe
    quantityToProduce inventory = (Confirmed, inventory1) →
  let p := checkIngredients inventoryItems quantityToProduce
             (Recipe.ingredients recipe.2) in
  ready = true ∧ confirm = true
  ∧ Number.le quantityToProduce (Num 0) = false
  ∧ canProduce p = true
  ∧ ∃ inventory',
      applyDeductions (deductions p) inventory = (true, inventory')
      ∧ match List.find (isNamed "finished_good" (Recipe.name recipe.2))
                inventoryItems with
        | Some finishedProduct =>
            ∃ d, inventory' !! finishedProduct.1 = Some d
                 ∧ inventory1
                   = <[finishedProduct.1 :=
                         Inventory.setStock
                           (Number.add (Inventory.stock finishedProduct.2)
                              quantityToProduce) d]> inventory'
        | None =>
            inventory1
            = addDoc inventory' (newFinishedGood recipe quantityToProduce)
        end.
Proof.
  intros H p. unfold handleConfirmProduction in H. fold p in H.
  destruct ready; [|done]. simpl in H.
  destruct (Number.le _ _); [done|].
  destruct (canProduce p); [|done]. simpl in H.
  destruct confirm; [|done]. simpl in H.
  destruct (applyDeductions _ _) as [[] inventory'] eqn:Happ; [|done].
  do 4 (split; [done|]). exists inventory'. split; [done|].
  destruct (List.find _ _) as [finishedProduct|].
  - unfold updateDoc in H.
    destruct (inventory' !! finishedProduct.1) as [d|] eqn:Hd; [|done].
    exists d. split; [done|]. by injection H as <-.
  - by injection H as <-.
Qed.

(** C6.  A confirmed production looks for a finished good of the recipe's
    name in the snapshot (names compared in lower case).  When there is
    none, the inventory gains a document under a new id, with the name of
    the recipe, [unit_value] 1, [unit_type] 'unidad' (the symbol of the
    count unit), the produced quantity as stock and the type
    'finished_good'.  When there is one, its document is left with the
    stock of the snapshot plus the produced quantity, its other fields as
    they were: an increase by the produced quantity when the stock of the
    snapshot is that of the collection. *)
Theorem finished_good_upsert (ready confirm : bool)
    (inventoryItems : list inventoryItem) (recipe : recipe)
    (quantityToProduce : number)
    (inventory inventory1 : gmap string Inventory.doc) :
  handleConfirmProduction ready inventoryItems confirm recipe
    quantityToProduce inventory = (Confirmed, inventory1) →
  match List.find (isNamed "finished_good" (Recipe.name recipe.2))
          inventoryItems with
  | None =>
      ∃ id, inventory !! id = None
            ∧ inventory1 !! id
              = Some {| Inventory.name := Recipe.name recipe.2;
                        Inventory.unit_value := Num 1;
                        Inventory.unit_type := "unidad";
                        Inventory.stock := quantityToProduce;
                        Inventory.type := "finished_good" |}
  | Some finishedProduct =>
      ∃ d, inventory !! finishedProduct.1 = Some d
           ∧ inventory1 !! finishedProduct.1
             = Some (Inventory.setStock
                       (Number.add (Inventory.stock finishedProduct.2)
                          quantityToProduce) d)
           ∧ (Inventory.stock d = Inventory.stock finishedProduct.2 →
              Inventory.stock <$> inventory1 !! finishedProduct.1
              = Some (Number.add (Inventory.stock d) quantityToProduce))
  end.
Proof.
  intros H. apply handleConfirmProduction_Confirmed in H.
  destruct H as (_ & _ & _ & _ & inventory' & Happ & H).
  destruct (List.find _ _) as [finishedProduct|].
  - destruct H as (d' & Hd' & ->).
    rewrite (applyDeductions_lookup _ _ _ _ Happ) in Hd'.
    destruct (inventory !! finishedProduct.1) as [d|] eqn:Hd;
      [|by destruct (lastWrite _ _)].
    assert (Inventory.setStock
              (Number.add (Inventory.stock finishedProduct.2)
                 quantityToProduce) d'
            = Inventory.setStock
                (Number.add (Inventory.stock finishedProduct.2)
                   quantityToProduce) d) as Hw.
    { destruct (lastWrite _ _); simpl in Hd'; by injection Hd' as <-. }
    exists d. rewrite lookup_insert_eq, Hw. repeat split.
    intros ->. reflexivity.
  - subst inventory1. exists (fresh (dom inventory')). split.
    + pose proof (is_fresh (dom inventory')) as Hfresh.
      apply not_elem_of_dom in Hfresh.
      rewrite (applyDeductions_lookup _ _ _ _ Happ) in Hfresh.
      destruct (inventory !! _); [|done]. by destruct (lastWrite _ _).
    + apply lookup_insert_eq.
Qed.

(** The deductions that the loop plans name items of the snapshot. *)
Lemma deductions_in_snapshot (inventoryItems : list inventoryItem)
    (quantityToProduce : number) (ings : list Ingredient.ingredient) :
  Forall (λ e, itemId e ∈ inventoryItems.*1)
    (deductions (checkIngredients inventoryItems quantityToProduce ings)).
Proof.
  unfold checkIngredients.
  assert (Forall (λ e, itemId e ∈ inventoryItems.*1)
            (deductions {| canProduce := true; shortageMessages := [];
                           deductions := [] |})) as H0 by constructor.
  revert H0. generalize (Planning true [] []).
  induction ings as [|ing ings IH]; intros p Hp; simpl; [done|].
  apply IH. unfold checkIngredient.
  destruct (List.find _ _) as [item|] eqn:Hfind; [|done].
  destruct (convertUnits _ _ _) as [required|]; [|done]. simpl.
  apply Forall_app. split; [done|]. constructor; [|constructor]. simpl.
  apply find_some in Hfind as [Hin _].
  apply list_elem_of_fmap. exists item. split; [done|].
  by apply list_elem_of_In.
Qed.

(** A plan without shortage, made on a snapshot whose documents exist, is
    confirmed on any collection, and writes its values. *)
Lemma handleConfirmProduction_commits (inventoryItems : list inventoryItem)
    (recipe : recipe) (quantityToProduce : number)
    (inventory : gmap string Inventory.doc) :
  (∀ item, In item inventoryItems → is_Some (inventory !! item.1)) →
  Number.le quantityToProduce (Num 0) = false →
  canProduce
    (checkIngredients inventoryItems quantityToProduce
       (Recipe.ingredients recipe.2)) = true →
  ∃ inventory1,
    handleConfirmProduction true inventoryItems true recipe
      quantityToProduce inventory = (Confirmed, inventory1)
    ∧ committed inventoryItems recipe quantityToProduce inventory inventory1
    ∧ ∀ j, is_Some (inventory !! j) → is_Some (inventory1 !! j).
Proof.
  intros Hdom Hq Hp.
  unfold handleConfirmProduction, committed. rewrite Hq, Hp.
  simpl negb. cbv iota zeta.
  set (ds := deductions _).
  destruct (applyDeductions_true ds inventory) as [inventory' Happ].
  { eapply Forall_impl; [apply deductions_in_snapshot|].
    intros e He. simpl in He.
    apply list_elem_of_fmap in He as (item & -> & Hin).
    apply Hdom. by apply list_elem_of_In. }
  rewrite Happ.
  assert (∀ j, inventory' !! j = overwrite (lastWrite ds j) (inventory !! j))
    as Hlook by (intros j; by apply applyDeductions_lookup).
  assert (∀ j, is_Some (inventory !! j) → is_Some (inventory' !! j)) as Hkeep.
  { intros j [d Hd]. rewrite Hlook, Hd. destruct (lastWrite ds j); by eexists. }
  destruct (List.find _ _) as [finishedProduct|] eqn:Hfind.
  - apply find_some in Hfind as [Hin _].
    destruct (Hdom _ Hin) as [d Hd].
    set (w := Number.add _ _).
    assert (∃ d', inventory' !! finishedProduct.1 = Some d'
                  ∧ Inventory.setStock w d' = Inventory.setStock w d)
      as (d' & Hd' & Hw).
    { rewrite Hlook, Hd. destruct (lastWrite ds _); simpl; by eexists. }
    unfold updateDoc. rewrite Hd', Hw.
    eexists. split; [reflexivity|]. split.
    + intros j. destruct (String.eqb_spec j finishedProduct.1) as [->|Hne].
      * by rewrite lookup_insert_eq, Hd.
      * by rewrite lookup_insert_ne.
    + intros j Hj. apply Hkeep in Hj.
      destruct (decide (j = finishedProduct.1)) as [->|Hne].
      * rewrite lookup_insert_eq. by eexists.
      * by rewrite lookup_insert_ne.
  - pose proof (is_fresh (dom inventory')) as Hfresh.
    apply not_elem_of_dom in Hfresh. unfold addDoc.
    set (id := fresh (dom inventory')) in *.
    eexists. split; [reflexivity|]. split.
    + exists id. split.
      * destruct (inventory !! id) as [d|] eqn:Hd; [|done].
        destruct (Hkeep id) as [d' Hd']; [by eexists|]. congruence.
      * intros j. destruct (String.eqb_spec j id) as [->|Hne].
        -- by rewrite lookup_insert_eq.
        -- by rewrite lookup_insert_ne.
    + intros j Hj. apply Hkeep in Hj.
      destruct (decide (j = id)) as [->|Hne].
      * rewrite lookup_insert_eq. by eexists.
      * by rewrite lookup_insert_ne.
Qed.

(** C2.  The writes of a commit carry no version and compare none.  A
    production whose plan, made on the snapshot, has no shortage is confirmed
    on any state of the collection that still has the documents of the
    snapshot, whatever their stock is by then, and writes the values of its
    plan: see [committed].  So of two productions planned against one
    snapshot, of whatever recipes and quantities, the second is confirmed on
    what the first left, as the first is, and writes the values of its own
    plan over those of the first. *)
Theorem commit_is_unconditional (inventoryItems : list inventoryItem)
    (recipe1 recipe2 : recipe) (quantity1 quantity2 : number)
    (inventory : gmap string Inventory.doc) :
  (∀ item, In item inventoryItems → is_Some (inventory !! item.1)) →
  Number.le quantity1 (Num 0) = false →
  canProduce
    (checkIngredients inventoryItems quantity1
       (Recipe.ingredients recipe1.2)) = true →
  Number.le quantity2 (Num 0) = false →
  canProduce
    (checkIngredients inventoryItems quantity2
       (Recipe.ingredients recipe2.2)) = true →
  ∃ inventory1 inventory2,
    handleConfirmProduction true inventoryItems true recipe1 quantity1
      inventory = (Confirmed, inventory1)
    ∧ committed inventoryItems recipe1 quantity1 inventory inventory1
    ∧ handleConfirmProduction true inventoryItems true recipe2 quantity2
        inventory1 = (Confirmed, inventory2)
    ∧ committed inventoryItems recipe2 quantity2 inventory1 inventory2.
Proof.
  intros Hdom Hq1 Hp1 Hq2 Hp2.
  destruct (handleConfirmProduction_commits inventoryItems recipe1 quantity1
              inventory Hdom Hq1 Hp1) as (inventory1 & H1 & Hc1 & Hkeep).
  destruct (handleConfirmProduction_commits inventoryItems recipe2 quantity2
              inventory1) as (inventory2 & H2 & Hc2 & _); [|done..|].
  { intros item Hin. by apply Hkeep, Hdom. }
  by exists inventory1, inventory2.
Qed.

(** ** Completing and reopening a sales order *)

Lemma productNameForDeduction_linked (recipes : list recipe)
    (selectedRecipeId : option string) (productDescription : string) :
  let name :=
    productNameForDeduction recipes selectedRecipeId productDescription in
  (isSet selectedRecipeId = false → name = productDescription)
  ∧ (isSet selectedRecipeId = true →
     (∃ r, In r recipes ∧ Some r.1 = selectedRecipeId
           ∧ name = Recipe.name r.2)
     ∨ ((∀ r, In r recipes → Some r.1 ≠ selectedRecipeId)
        ∧ name = productDescription)).
Proof.
  unfold productNameForDeduction. simpl.
  destruct (isSet selectedRecipeId); split; try done. intros _.
  destruct (List.find _ _) as [r|] eqn:E.
  - left. apply find_some in E as [Hin Hr].
    apply bool_decide_eq_true in Hr. by exists r.
  - right. split; [|done]. intros r Hin Hr.
    apply (find_none _ _ E) in Hin. by apply bool_decide_eq_false in Hin.
Qed.

(** C7.  Completing a pending order.  The product name is the name of the
    recipe whose id is [selectedRecipeId], when that is set and the list has
    such a recipe, and [productDescription] when it is not set or the list
    has none; the finished good is looked up in the snapshot by that name in
    lower case.  Without such an item, or with less stock in the snapshot
    than the order asks, a message is shown and nothing is written.
    Otherwise, once confirmed, the stock of the item is set to the stock of
    the snapshot less the quantity, and then the status of the order to
    'Completado': two writes, one after the other.  When the first is
    rejected nothing is written; when the second is rejected the stock stays
    deducted. *)
Theorem complete_order (inventoryItems : list inventoryItem)
    (recipes : list recipe) (confirm : bool) (orderId : string)
    (selectedRecipeId : option string) (productDescription : string)
    (quantity : number) (inventory : gmap string Inventory.doc)
    (salesOrders : gmap string Order.doc) :
  let name :=
    productNameForDeduction recipes selectedRecipeId productDescription in
  let result :=
    handleChangeOrderStatus true inventoryItems recipes confirm orderId
      "Pendiente" selectedRecipeId productDescription quantity inventory
      salesOrders in
  (∀ r, isSet selectedRecipeId = true → In r recipes →
        Some r.1 = selectedRecipeId →
        (∀ r', In r' recipes → r'.1 = r.1 → r' = r) →
        name = Recipe.name r.2)
  ∧ (isSet selectedRecipeId = false → name = productDescription)
  ∧ ((∀ r, In r recipes → Some r.1 ≠ selectedRecipeId) →
     name = productDescription)
  ∧ match List.find (isNamed "finished_good" name) inventoryItems with
    | None => result = (ProductNotFound name, inventory, salesOrders)
    | Some finishedProduct =>
        let stock := Inventory.stock finishedProduct.2 in
        if Number.lt stock quantity
        then result
             = (InsufficientStock name stock
                  (Inventory.unit_type finishedProduct.2) quantity,
                inventory, salesOrders)
        else if confirm then
          match inventory !! finishedProduct.1 with
          | None => result = (OrderFailed, inventory, salesOrders)
          | Some d =>
              let inventory' :=
                <[finishedProduct.1 :=
                    Inventory.setStock (Number.sub stock quantity) d]>
                  inventory in
              match salesOrders !! orderId with
              | None => result = (OrderFailed, inventory', salesOrders)
              | Some o =>
                  result
                  = (Completed, inventory',
                     <[orderId := Order.setStatus "Completado" o]>
                       salesOrders)
              end
          end
        else result = (OrderDeclined, inventory, salesOrders)
    end.
Proof.
  intros name result.
  destruct (productNameForDeduction_linked recipes selectedRecipeId
              productDescription) as [Hunset Hset].
  fold name in Hunset, Hset.
  split; [|split; [done|split]].
  - intros r Hsel Hin Hid Hunique.
    destruct (Hset Hsel) as [(r0 & Hin0 & Hid0 & ->)|[Hnone _]].
    + rewrite (Hunique r0 Hin0); [done|]. congruence.
    + by destruct (Hnone r Hin).
  - intros Hnone. destruct (isSet selectedRecipeId) eqn:E; [|by apply Hunset].
    destruct (Hset eq_refl) as [(r0 & Hin0 & Hid0 & _)|[_ Hname]]; [|done].
    by destruct (Hnone r0 Hin0).
  - unfold result, handleChangeOrderStatus.
    simpl negb. cbv iota. simpl String.eqb. cbv iota. fold name.
    destruct (List.find _ _) as [finishedProduct|]; [|done].
    simpl. destruct (Number.lt _ _); [done|].
    destruct confirm; [|done]. simpl. unfold updateDoc.
    destruct (inventory !! _) as [d|]; [|done].
    by destruct (salesOrders !! orderId).
Qed.

(** C8.  Reopening a completed order writes the status 'Pendiente' to the
    order and nothing else: the inventory is left as it is, the order keeps
    its other fields, and the other orders are not touched. *)
Theorem reopen_changes_status_only (ready confirm : bool)
    (inventoryItems : list inventoryItem) (recipes : list recipe)
    (orderId : string) (o : Order.doc)
    (inventory : gmap string Inventory.doc)
    (salesOrders : gmap string Order.doc) :
  salesOrders !! orderId = Some o → Order.status o = "Completado" →
  let result :=
    handleChangeOrderStatus ready inventoryItems recipes confirm orderId
      (Order.status o) (Order.selectedRecipeId o) (Order.productDescription o)
      (Order.quantity o) inventory salesOrders in
  let reopened :=
    {| Order.customerName := Order.customerName o;
       Order.orderType := Order.orderType o;
       Order.selectedRecipeId := Order.selectedRecipeId o;
       Order.productDescription := Order.productDescription o;
       Order.quantity := Order.quantity o;
       Order.orderDate := Order.orderDate o;
       Order.status := "Pendiente" |} in
  result.1.2 = inventory
  ∧ (if ready && confirm
     then result = (Reopened, inventory, <[orderId := reopened]> salesOrders)
     else result.2 = salesOrders)
  ∧ ∀ j, j ≠ orderId → result.2 !! j = salesOrders !! j.
Proof.
  intros Ho Hstatus result reopened.
  unfold result, handleChangeOrderStatus. rewrite Hstatus.
  simpl String.eqb. cbv iota.
  destruct ready; simpl; [|done].
  destruct confirm; simpl; [|done].
  unfold updateDoc. rewrite Ho. simpl. repeat split.
  intros j Hne. by rewrite lookup_insert_ne.
Qed.

(** ** Quantity and ingredient list of a production *)

(** C9.  A quantity that is not above zero is refused and nothing is
    written.  An empty ingredient list is not refused by the handler (it is
    the recipe form that refuses to save such a recipe): the loop finds no
    shortage and plans no deduction, and the confirmed production writes
    the finished good alone: a new document when the snapshot has no
    finished good of the recipe's name, else the stock of the snapshot plus
    the quantity in the document of the one it has, and nothing, with a
    failure, when that document is no longer there. *)
Theorem production_input_validation (ready confirm : bool)
    (inventoryItems : list inventoryItem) (recipe : recipe)
    (quantityToProduce : number) (inventory : gmap string Inventory.doc) :
  let result :=
    handleConfirmProduction ready inventoryItems confirm recipe
      quantityToProduce inventory in
  (Number.le quantityToProduce (Num 0) = true →
   result.2 = inventory
   ∧ (ready = true → result = (InvalidQuantity, inventory)))
  ∧ (Number.le quantityToProduce (Num 0) = false →
     Recipe.ingredients recipe.2 = [] →
     checkIngredients inventoryItems quantityToProduce
       (Recipe.ingredients recipe.2)
     = {| canProduce := true; shortageMessages := []; deductions := [] |}
     ∧ (ready = true → confirm = true →
        match List.find (isNamed "finished_good" (Recipe.name recipe.2))
                inventoryItems with
        | None =>
            result
            = (Confirmed,
               addDoc inventory (newFinishedGood recipe quantityToProduce))
        | Some finishedProduct =>
            match inventory !! finishedProduct.1 with
            | Some d =>
                result
                = (Confirmed,
                   <[finishedProduct.1 :=
                       Inventory.setStock
                         (Number.add (Inventory.stock finishedProduct.2)
                            quantityToProduce) d]> inventory)
            | None => result = (Failed, inventory)
            end
        end)).
Proof.
  intros result. unfold result, handleConfirmProduction. split.
  - intros ->. destruct ready; simpl; by split.
  - intros -> ->. split; [done|]. intros -> ->. simpl.
    destruct (List.find _ _) as [finishedProduct|]; [|done].
    unfold updateDoc. by destruct (inventory !! finishedProduct.1).
Qed.

(** ** Worked cases *)

Example snapshot_oneBag : snapshot oneBag = oneBagItems.
Proof. vm_compute. reflexivity. Qed.

(** Two productions planned against one snapshot that holds flour for one
    cake: both are confirmed. *)
Lemma two_productions_both_confirmed :
  ∃ inventory1 inventory2,
    handleConfirmProduction true (snapshot oneBag) true torta (Num 1) oneBag
    = (Confirmed, inventory1)
    ∧ handleConfirmProduction true (snapshot oneBag) true torta (Num 1)
        inventory1
      = (Confirmed, inventory2)
    ∧ size inventory2 = 3.
Proof.
  eexists _, _. split; [vm_compute; reflexivity|].
  split; vm_compute; reflexivity.
Qed.

(** Two bags of flour, one cake and then two cakes planned against the
    one snapshot: both productions are confirmed, three bags' worth of
    flour is taken from two, and the second leaves the stock that its own
    plan computed from the snapshot. *)
Example second_production_overwrites :
  ∃ inventory1 inventory2,
    handleConfirmProduction true [("h1", dosBolsas)] true torta (Num 1)
      {[ "h1" := dosBolsas ]} = (Confirmed, inventory1)
    ∧ Inventory.stock <$> inventory1 !! "h1" = Some (Num (500 # 500))
    ∧ handleConfirmProduction true [("h1", dosBolsas)] true torta (Num 2)
        inventory1 = (Confirmed, inventory2)
    ∧ Inventory.stock <$> inventory2 !! "h1" = Some (Num (0 # 500)).
Proof.
  eexists _, _. split; [vm_compute; reflexivity|].
  split; [vm_compute; reflexivity|].
  split; vm_compute; reflexivity.
Qed.

(** The finished good is looked up in the snapshot and its stock is taken
    from there.  With 3 cakes in the snapshot and 7 in the collection, a
    production of one cake leaves 4, not 8; and with the cakes in the
    collection but not in the snapshot, the production adds a second
    document for them and leaves the first as it was. *)
Lemma finished_good_set_from_snapshot :
  (∃ inventory1,
     handleConfirmProduction true
       [("h1", harina); ("p1", Inventory.setStock (Num 3) tortas)] true
       torta (Num 1)
       {[ "h1" := harina; "p1" := Inventory.setStock (Num 7) tortas ]}
     = (Confirmed, inventory1)
     ∧ Inventory.stock <$> inventory1 !! "p1" = Some (Num 4))
  ∧ (∃ inventory1,
       handleConfirmProduction true [("h1", harina)] true torta (Num 1)
         {[ "h1" := harina; "p1" := tortas ]}
       = (Confirmed, inventory1)
       ∧ inventory1 !! "p1" = Some tortas
       ∧ size inventory1 = 3).
Proof.
  split; eexists; (split; [vm_compute; reflexivity|]).
  - vm_compute. reflexivity.
  - split; vm_compute; reflexivity.
Qed.

(** An order deleted since the snapshot: the stock is deducted, the status
    write is rejected, and the deduction stays.  And 10 cakes in the
    snapshot with 7 in the collection: an order of 5 leaves 5, the stock of
    the snapshot less 5, not 2. *)
Lemma order_stock_written_without_status :
  handleChangeOrderStatus true [("p1", tortas)] [torta] true "o1" "Pendiente"
    (Some "r1") EmptyString (Num 5) {[ "p1" := tortas ]} ∅
  = (OrderFailed, {[ "p1" := Inventory.setStock (Num 5) tortas ]}, ∅)
  ∧ handleChangeOrderStatus true [("p1", tortas)] [torta] true "o1"
      "Pendiente" (Some "r1") EmptyString (Num 5)
      {[ "p1" := Inventory.setStock (Num 7) tortas ]}
      {[ "o1" := pedido "Pendiente" ]}
    = (Completed, {[ "p1" := Inventory.setStock (Num 5) tortas ]},
       {[ "o1" := pedido "Completado" ]}).
Proof. split; vm_compute; reflexivity. Qed.

(** A recipe without ingredients is produced: the production is confirmed
    and the inventory gains the finished good. *)
Lemma empty_recipe_is_produced :
  ∃ id, handleConfirmProduction true [] true agua (Num 1) ∅
        = (Confirmed, {[ id := newFinishedGood agua (Num 1) ]}).
Proof. exists "0". vm_compute. reflexivity. Qed.

(** A document deleted since the snapshot: the deductions before it stay. *)
Example production_partly_written :
  let sal :=
    {| Inventory.name := "Sal"; Inventory.unit_value := Num 1000;
       Inventory.unit_type := "g"; Inventory.stock := Num 1;
       Inventory.type := "raw_material" |} in
  let salada :=
    ("r4",
     {| Recipe.name := "Salada"; Recipe.type := "cookie";
        Recipe.ingredients :=
          [ {| Ingredient.name := "harina"; Ingredient.quantity := Num 500;
               Ingredient.unit := "g" |};
            {| Ingredient.name := "sal"; Ingredient.quantity := Num 10;
               Ingredient.unit := "g" |} ] |}) in
  handleConfirmProduction true [("h1", harina); ("s1", sal)] true salada
    (Num 1) oneBag
  = (Failed, {[ "h1" := Inventory.setStock (Num (0 # 500)) harina ]}).
Proof. vm_compute. reflexivity. Qed.

(** An ingredient whose unit is an inherited key is not reported: the
    production is confirmed and the stock of the flour is left [NaN]. *)
Example production_writes_NaN :
  let rara :=
    ("r5",
     {| Recipe.name := "Rara"; Recipe.type := "cookie";
        Recipe.ingredients :=
          [ {| Ingredient.name := "harina"; Ingredient.quantity := Num 1;
               Ingredient.unit := "constructor" |} ] |}) in
  ∃ inventory1,
    handleConfirmProduction true oneBagItems true rara (Num 1) oneBag
    = (Confirmed, inventory1)
    ∧ Inventory.stock <$> inventory1 !! "h1" = Some NaN.
Proof. eexists. split; vm_compute; reflexivity. Qed.

(** 150 g of flour on hand and 2 x 100 g asked: a shortage of flour, and
    the inventory as it was. *)
Example flour_shortage :
  handleConfirmProduction true [("f1", flour)] true bread (Num 2)
    {[ "f1" := flour ]}
  = (Shortages [Insufficient "Flour" (Num 200) (Num 150) "g"],
     {[ "f1" := flour ]}).
Proof. vm_compute. reflexivity. Qed.

(** An order of 5 against a stock of 10 leaves 5 and 'Completado'; reopening
    it leaves 5 and 'Pendiente'. *)
Example complete_then_reopen :
  handleChangeOrderStatus true [("p1", tortas)] [torta] true "o1" "Pendiente"
    (Some "r1") EmptyString (Num 5) {[ "p1" := tortas ]}
    {[ "o1" := pedido "Pendiente" ]}
  = (Completed, {[ "p1" := Inventory.setStock (Num 5) tortas ]},
     {[ "o1" := pedido "Completado" ]})
  ∧ handleChangeOrderStatus true
      [("p1", Inventory.setStock (Num 5) tortas)] [torta] true "o1"
      "Completado" (Some "r1") EmptyString (Num 5)
      {[ "p1" := Inventory.setStock (Num 5) tortas ]}
      {[ "o1" := pedido "Completado" ]}
    = (Reopened, {[ "p1" := Inventory.setStock (Num 5) tortas ]},
       {[ "o1" := pedido "Pendiente" ]}).
Proof. split; vm_compute; reflexivity. Qed.

(** ** Instances *)


Lemma commit_is_unconditional_witness :
  ∃ inventory1 inventory2,
    handleConfirmProduction true [("h1", dosBolsas)] true torta (Num 1)
      {[ "h1" := dosBolsas ]} = (Confirmed, inventory1)
    ∧ committed [("h1", dosBolsas)] torta (Num 1) {[ "h1" := dosBolsas ]}
        inventory1
    ∧ handleConfirmProduction true [("h1", dosBolsas)] true torta (Num 2)
        inventory1 = (Confirmed, inventory2)
    ∧ committed [("h1", dosBolsas)] torta (Num 2) inventory1 inventory2.
Proof.
  apply (commit_is_unconditional [("h1", dosBolsas)] torta torta (Num 1)
           (Num 2) {[ "h1" := dosBolsas ]}).
  - intros item [<-|[]]. by eexists.
  - reflexivity.
  - vm_compute. reflexivity.
  - reflexivity.
  - vm_compute. reflexivity.
Defined.

Lemma plan_evaluates_every_ingredient_witness :
  shortageMessages
    (checkIngredients [("f1", flour)] (Num 2) (Recipe.ingredients bread.2))
  = shortagesOf
      (map (assess [("f1", flour)] (Num 2)) (Recipe.ingredients bread.2)).
Proof.
  apply (plan_evaluates_every_ingredient [("f1", flour)] true bread (Num 2)
           {[ "f1" := flour ]}).
  reflexivity.
Defined.

Lemma finished_good_upsert_witness :
  (∃ id, oneBag !! id = None
         ∧ (handleConfirmProduction true oneBagItems true torta (Num 1)
              oneBag).2 !! id
           = Some {| Inventory.name := "Torta"; Inventory.unit_value := Num 1;
                     Inventory.unit_type := "unidad";
                     Inventory.stock := Num 1;
                     Inventory.type := "finished_good" |})
  ∧ (handleConfirmProduction true [("h1", harina); ("p1", tortas)] true
       torta (Num 1) {[ "h1" := harina; "p1" := tortas ]}).2 !! "p1"
    = Some (Inventory.setStock (Number.add (Num 10) (Num 1)) tortas).
Proof.
  split.
  - apply (finished_good_upsert true true oneBagItems torta (Num 1) oneBag).
    vm_compute. reflexivity.
  - destruct (finished_good_upsert true true
                [("h1", harina); ("p1", tortas)] torta (Num 1)
                {[ "h1" := harina; "p1" := tortas ]}
                (handleConfirmProduction true
                   [("h1", harina); ("p1", tortas)] true torta (Num 1)
                   {[ "h1" := harina; "p1" := tortas ]}).2)
      as (d & Hd & Hwritten & _).
    + vm_compute. reflexivity.
    + vm_compute in Hd. injection Hd as <-.
      vm_compute in Hwritten. vm_compute. exact Hwritten.
Defined.

Lemma complete_order_witness :
  productNameForDeduction [torta] (Some "r1") EmptyString = "Torta"
  ∧ handleChangeOrderStatus true [("p1", tortas)] [torta] true "o1"
      "Pendiente" (Some "r1") EmptyString (Num 5) {[ "p1" := tortas ]}
      {[ "o1" := pedido "Pendiente" ]}
    = (Completed, {[ "p1" := Inventory.setStock (Num 5) tortas ]},
       {[ "o1" := pedido "Completado" ]}).
Proof.
  destruct (complete_order [("p1", tortas)] [torta] true "o1" (Some "r1")
              EmptyString (Num 5) {[ "p1" := tortas ]}
              {[ "o1" := pedido "Pendiente" ]})
    as (Hlinked & _ & _ & Hresult).
  split.
  - apply (Hlinked torta); [reflexivity|by left|reflexivity|].
    by intros r' [<-|[]] _.
  - vm_compute in Hresult. vm_compute. exact Hresult.
Defined.

Lemma reopen_changes_status_only_witness :
  (handleChangeOrderStatus true [("p1", tortas)] [torta] true "o1"
     "Completado" (Some "r1") EmptyString (Num 5) {[ "p1" := tortas ]}
     {[ "o1" := pedido "Completado" ]}).1.2
  = {[ "p1" := tortas ]}.
Proof.
  apply (reopen_changes_status_only true true [("p1", tortas)] [torta] "o1"
           (pedido "Completado") {[ "p1" := tortas ]}
           {[ "o1" := pedido "Completado" ]}).
  - apply lookup_singleton_eq.
  - reflexivity.
Defined.

Lemma production_input_validation_witness :
  handleConfirmProduction true oneBagItems true torta (Num 0) oneBag
  = (InvalidQuantity, oneBag)
  ∧ checkIngredients [] (Num 1) (Recipe.ingredients agua.2)
    = {| canProduce := true; shortageMessages := []; deductions := [] |}
  ∧ handleConfirmProduction true [("p1", tortas)] true
      ("r6", {| Recipe.name := "torta"; Recipe.type := "cake";
                Recipe.ingredients := [] |})
      (Num 1) {[ "p1" := tortas ]}
    = (Confirmed, {[ "p1" := Inventory.setStock (Num 11) tortas ]}).
Proof.
  split; [|split].
  - apply (production_input_validation true true oneBagItems torta (Num 0)
             oneBag); reflexivity.
  - apply (production_input_validation true true [] agua (Num 1) ∅);
      reflexivity.
  - destruct (production_input_validation true true [("p1", tortas)]
                ("r6", {| Recipe.name := "torta"; Recipe.type := "cake";
                          Recipe.ingredients := [] |})
                (Num 1) {[ "p1" := tortas ]}) as [_ H].
    destruct (H eq_refl eq_refl) as [_ Hresult].
    specialize (Hresult eq_refl eq_refl).
    vm_compute in Hresult. vm_compute. exact Hresult.
Defined.

(** * Further properties *)

(** ** Conversions that yield a number *)

Lemma factorOf_pos (u : string) (c : category) (f : Q) :
  factorOf u = Some (c, f) → (0 < f)%Q.
Proof.
  intros H. apply factorOf_Some in H.
  destruct H as [E|[E|[E|[E|[E|E]]]]]; destruct E as (_ & _ & ->);
    reflexivity.
Qed.

Lemma sameCategory_eq (c c' : category) : sameCategory c c' = true ↔ c = c'.
Proof. destruct c, c'; simpl; split; (done || discriminate). Qed.

(** An inherited key is in no table: its lookup gives the inherited
    property, whatever the category. *)
Lemma getProperty_inherited (c k : string) :
  inherited k = true →
  getProperty (conversionFactors !!! c) k = Some Inherited.
Proof.
  intros Hk. unfold getProperty. rewrite Hk.
  assert (factorOf k = None) as Hf.
  { unfold inherited, objectPrototype in Hk. simpl in Hk.
    repeat (apply orb_prop in Hk as [Hk|Hk];
            [apply String.eqb_eq in Hk; subst k; reflexivity|]).
    discriminate. }
  apply factorOf_None in Hf. destruct Hf as (? & ? & ? & ? & ? & ?).
  assert ((conversionFactors !!! c : gmap string Q) !! k = None) as ->;
    [|done].
  destruct (decide (c = "mass")) as [->|?].
  { rewrite conversionFactors_mass.
    by rewrite !lookup_insert_ne, ?lookup_singleton_ne. }
  destruct (decide (c = "volume")) as [->|?].
  { rewrite conversionFactors_volume.
    by rewrite !lookup_insert_ne, ?lookup_singleton_ne. }
  destruct (decide (c = "count")) as [->|?].
  { rewrite conversionFactors_count. by rewrite lookup_singleton_ne. }
  unfold lookup_total, map_lookup_total, conversionFactors.
  rewrite !lookup_insert_ne, lookup_singleton_ne by done. simpl.
  apply lookup_empty.
Qed.

(** A conversion between different symbols that yields a number has read
    both symbols in the table. *)
Lemma convertUnits_Num_plain (x y : Q) (u w : string) :
  convertUnits (Num x) u w = Some (Num y) →
  String.eqb (toLowerCase u) (toLowerCase w) = false →
  inherited (toLowerCase u) = false ∧ inherited (toLowerCase w) = false.
Proof.
  unfold convertUnits. intros H Hne. rewrite Hne in H.
  destruct (negb _ || _); [done|]. injection H as H.
  split.
  - destruct (inherited (toLowerCase u)) eqn:E; [|done].
    by rewrite (getProperty_inherited _ _ E) in H.
  - destruct (inherited (toLowerCase w)) eqn:E; [|done].
    rewrite (getProperty_inherited _ _ E) in H.
    by destruct (toNumber (getProperty _ (toLowerCase u))).
Qed.

(** What a conversion that yields a number has computed. *)
Lemma convertUnits_Num (x y : Q) (u w : string) :
  convertUnits (Num x) u w = Some (Num y) →
  (String.eqb (toLowerCase u) (toLowerCase w) = true ∧ y = x)
  ∨ (String.eqb (toLowerCase u) (toLowerCase w) = false
     ∧ ∃ c f g, factorOf (toLowerCase u) = Some (c, f)
                ∧ factorOf (toLowerCase w) = Some (c, g)
                ∧ y = (x * f / g)%Q).
Proof.
  intros H. destruct (String.eqb _ _) eqn:Hne.
  - left. split; [done|]. unfold convertUnits in H. rewrite Hne in H.
    by injection H as <-.
  - right. split; [done|].
    destruct (convertUnits_Num_plain _ _ _ _ H Hne) as [Hu Hw].
    rewrite (convertUnits_plain _ _ _ Hu Hw), Hne in H.
    destruct (factorOf (toLowerCase u)) as [[c f]|]; [|done].
    destruct (factorOf (toLowerCase w)) as [[c' g]|] eqn:Fw; [|done].
    destruct (sameCategory c c') eqn:Hc; [|done].
    apply sameCategory_eq in Hc as <-.
    exists c, f, g. repeat split. simpl in H.
    destruct (Qeq_bool g 0); [done|]. by injection H as <-.
Qed.

Lemma eqb_lower_sym (u w : string) :
  String.eqb (toLowerCase w) (toLowerCase u)
  = String.eqb (toLowerCase u) (toLowerCase w).
Proof. apply String.eqb_sym. Qed.

(** X1.  Whether a conversion is refused does not depend on the value, nor
    on the direction: [convertUnits(v, u, w)] is [null] exactly when
    [convertUnits(v', w, u)] is. *)
Theorem convertUnits_refusal_symmetric (v v' : number) (u w : string) :
  convertUnits v u w = None ↔ convertUnits v' w u = None.
Proof.
  unfold convertUnits. rewrite (eqb_lower_sym u w).
  destruct (String.eqb (toLowerCase u) (toLowerCase w)); [done|].
  destruct (String.eqb_spec (categoryOf (toLowerCase u))
              (categoryOf (toLowerCase w))) as [->|Hne].
  - rewrite String.eqb_refl. simpl.
    by destruct (String.eqb _ _).
  - assert (String.eqb (categoryOf (toLowerCase w))
              (categoryOf (toLowerCase u)) = false) as ->.
    { apply String.eqb_neq. congruence. }
    done.
Qed.

(** X5.  Conversions never reverse the order of quantities: of two
    quantities converted between the same two symbols, the one that is not
    the larger is converted to the one that is not the larger. *)
Theorem convertUnits_monotone (x1 x2 y1 y2 : Q) (u w : string) :
  convertUnits (Num x1) u w = Some (Num y1) →
  convertUnits (Num x2) u w = Some (Num y2) →
  Number.le (Num x1) (Num x2) = true →
  Number.le (Num y1) (Num y2) = true.
Proof.
  intros H1 H2. apply convertUnits_Num in H1. apply convertUnits_Num in H2.
  destruct H1 as [[He1 ->]|(Hne1 & c & f & g & Fu & Fw & ->)];
    destruct H2 as [[He2 ->]|(Hne2 & c' & f' & g' & Fu' & Fw' & ->)];
    try congruence.
  rewrite Fu in Fu'. injection Fu' as <- <-.
  rewrite Fw in Fw'. injection Fw' as <-.
  pose proof (factorOf_pos _ _ _ Fu) as Hf.
  pose proof (factorOf_pos _ _ _ Fw) as Hg.
  simpl. rewrite !Qle_bool_iff. intros Hle.
  unfold Qdiv. rewrite <- !Qmult_assoc.
  apply Qmult_le_r; [|done].
  apply Qlt_shift_div_l; lra.
Qed.

Lemma convertUnits_monotone_witness :
  Number.le (Num (1 * 1000 / 1)) (Num (2 * 1000 / 1)) = true.
Proof.
  apply (convertUnits_monotone 1 2 _ _ "kg" "g"); vm_compute; reflexivity.
Defined.

(** ** The converter page *)

Lemma factorOf_plain (k : string) (c : category) (f : Q) :
  factorOf k = Some (c, f) → inherited k = false ∧ toLowerCase k = k.
Proof.
  intros Hk. apply factorOf_Some in Hk.
  destruct Hk as [E|[E|[E|[E|[E|E]]]]]; destruct E as (-> & _ & _);
    split; reflexivity.
Qed.

Lemma converterUnitOptions_factor (u : string) :
  In u ConverterPage.converterUnitOptions → ∃ c f, factorOf u = Some (c, f).
Proof.
  unfold ConverterPage.converterUnitOptions. simpl.
  intros [<-|[<-|[<-|[<-|[<-|[<-|[]]]]]]]; by eexists _, _.
Qed.

(** X6.  On the converter page, whose two lists offer the six symbols of
    the table, a value that is a number not below zero is either converted
    to a number not below zero, when the two symbols are of one category,
    or reported as incompatible, when they are not; the result is never
    [NaN]. *)
Theorem handleConvert_options (value : number) (fromUnit toUnit : string) :
  In fromUnit ConverterPage.converterUnitOptions →
  In toUnit ConverterPage.converterUnitOptions →
  match ConverterPage.handleConvert value fromUnit toUnit with
  | ConverterPage.InvalidValue =>
      isNaN value = true ∨ Number.lt value (Num 0) = true
  | ConverterPage.Incompatible =>
      Number.nonneg value
      ∧ fst <$> factorOf fromUnit ≠ fst <$> factorOf toUnit
  | ConverterPage.Converted converted unit =>
      unit = toUnit ∧ Number.nonneg value ∧ Number.nonneg converted
      ∧ fst <$> factorOf fromUnit = fst <$> factorOf toUnit
  end.
Proof.
  intros Hfrom Hto.
  apply converterUnitOptions_factor in Hfrom as (c & f & Fu).
  apply converterUnitOptions_factor in Hto as (c' & g & Fw).
  destruct (factorOf_plain _ _ _ Fu) as [Hu Lu].
  destruct (factorOf_plain _ _ _ Fw) as [Hw Lw].
  unfold ConverterPage.handleConvert, parseFloat.
  destruct value as [x|]; [|simpl; by left]. cbn [isNaN orb].
  destruct (Number.lt (Num x) (Num 0)) eqn:Hlt; [by right|].
  apply lt_Num in Hlt.
  rewrite <- Lu in Hu. rewrite <- Lw in Hw.
  rewrite (convertUnits_plain _ _ _ Hu Hw), Lu, Lw, Fu, Fw.
  destruct (String.eqb_spec fromUnit toUnit) as [->|Hne].
  - assert (c = c') as <- by congruence. by repeat split.
  - destruct (sameCategory c c') eqn:Hc.
    + apply sameCategory_eq in Hc as <-. simpl.
      pose proof (factorOf_pos _ _ _ Fu) as Hf.
      pose proof (factorOf_pos _ _ _ Fw) as Hg.
      destruct (Qeq_bool g 0) eqn:E.
      { apply Qeq_bool_iff in E. lra. }
      repeat split; try done.
      apply Qle_shift_div_l; [done|]. nra.
    + split; [done|]. simpl. intros [= ->].
      assert (sameCategory c' c' = true) by by apply sameCategory_eq.
      congruence.
Qed.

Lemma handleConvert_options_witness :
  match ConverterPage.handleConvert (Num 2) "kg" "g" with
  | ConverterPage.Converted converted unit =>
      unit = "g" ∧ Number.nonneg converted
  | _ => False
  end.
Proof.
  pose proof (handleConvert_options (Num 2) "kg" "g") as H.
  assert (In "kg" ConverterPage.converterUnitOptions) as H1
    by (simpl; tauto).
  assert (In "g" ConverterPage.converterUnitOptions) as H2
    by (simpl; tauto).
  specialize (H H1 H2).
  destruct (ConverterPage.handleConvert (Num 2) "kg" "g") eqn:E;
    [discriminate E| |discriminate E].
  destruct H as (Hu & _ & Hc & _). by split.
Defined.

(** ** What a production and an order write *)

Lemma sameButStock_refl (d : Inventory.doc) : sameButStock d d.
Proof. by destruct d. Qed.

Lemma sameButStock_setStock (s : number) (d : Inventory.doc) :
  sameButStock d (Inventory.setStock s d).
Proof. reflexivity. Qed.

Lemma sameButStock_trans (d d' d'' : Inventory.doc) :
  sameButStock d d' → sameButStock d' d'' → sameButStock d d''.
Proof. unfold sameButStock. intros -> ->. reflexivity. Qed.

Lemma keepsDocuments_refl (m : gmap string Inventory.doc) :
  keepsDocuments m m.
Proof. intros j d Hd. exists d. split; [done|apply sameButStock_refl]. Qed.

Lemma keepsDocuments_trans (m m' m'' : gmap string Inventory.doc) :
  keepsDocuments m m' → keepsDocuments m' m'' → keepsDocuments m m''.
Proof.
  intros H1 H2 j d Hd. destruct (H1 j d Hd) as (d' & Hd' & Hs).
  destruct (H2 j d' Hd') as (d'' & Hd'' & Hs'). exists d''.
  split; [done|]. by eapply sameButStock_trans.
Qed.

Lemma updateDoc_setStock_keeps (m m' : gmap string Inventory.doc)
    (id : string) (s : number) :
  updateDoc m id (Inventory.setStock s) = Some m' →
  keepsDocuments m m' ∧ ∀ j, m !! j = None → m' !! j = None.
Proof.
  intros H. split.
  - intros j d Hd. rewrite (updateDoc_lookup _ _ _ _ j H), Hd.
    destruct (String.eqb j id); simpl; eexists; (split; [done|]);
      first [apply sameButStock_setStock | apply sameButStock_refl].
  - intros j Hj. rewrite (updateDoc_lookup _ _ _ _ j H), Hj.
    by destruct (String.eqb j id).
Qed.

Lemma applyDeductions_keeps (ds : list deduction)
    (m : gmap string Inventory.doc) :
  keepsDocuments m (applyDeductions ds m).2
  ∧ ∀ j, m !! j = None → (applyDeductions ds m).2 !! j = None.
Proof.
  revert m. induction ds as [|e ds IH]; intros m; simpl.
  - split; [apply keepsDocuments_refl|done].
  - destruct (updateDoc _ _ _) as [m'|] eqn:E; simpl.
    + apply updateDoc_setStock_keeps in E as [Hk Hn].
      destruct (IH m') as [Hk' Hn']. split.
      * by eapply keepsDocuments_trans.
      * intros j Hj. by apply Hn', Hn.
    + split; [apply keepsDocuments_refl|done].
Qed.

(** A write of the deductions is to a document that a deduction names. *)
Lemma applyDeductions_other (ds : list deduction)
    (m : gmap string Inventory.doc) (j : string) :
  Forall (λ e, itemId e ≠ j) ds → (applyDeductions ds m).2 !! j = m !! j.
Proof.
  revert m. induction ds as [|e ds IH]; intros m Hds; simpl; [done|].
  apply Forall_cons in Hds as [He Hds].
  destruct (updateDoc _ _ _) as [m'|] eqn:E; simpl; [|done].
  rewrite (IH m' Hds), (updateDoc_lookup _ _ _ _ j E).
  destruct (String.eqb_spec j (itemId e)); [by subst|done].
Qed.

(** X7.  A production never deletes a document and changes no field but
    the stock: every document of the inventory is still there afterwards,
    with its name, [unit_value], [unit_type] and type; and the one document
    that it can add is the finished good of the recipe. *)
Theorem production_changes_stock_only (ready confirm : bool)
    (inventoryItems : list inventoryItem) (recipe : recipe)
    (quantityToProduce : number) (inventory : gmap string Inventory.doc) :
  let inventory' :=
    (handleConfirmProduction ready inventoryItems confirm recipe
       quantityToProduce inventory).2 in
  keepsDocuments inventory inventory'
  ∧ ∀ j d', inventory !! j = None → inventory' !! j = Some d' →
            d' = newFinishedGood recipe quantityToProduce.
Proof.
  assert (∀ m : gmap string Inventory.doc,
            keepsDocuments m m
            ∧ ∀ j d', m !! j = None → m !! j = Some d' →
                      d' = newFinishedGood recipe quantityToProduce)
    as Hsame.
  { intros m. split; [apply keepsDocuments_refl|]. intros; congruence. }
  unfold handleConfirmProduction.
  destruct ready; simpl; [|apply Hsame].
  destruct (Number.le _ _); [apply Hsame|].
  destruct (canProduce _); simpl; [|apply Hsame].
  destruct confirm; simpl; [|apply Hsame].
  match goal with
  | |- context [applyDeductions ?ds inventory] =>
      destruct (applyDeductions_keeps ds inventory) as [Hk Hn];
      destruct (applyDeductions ds inventory) as [[] m] eqn:Happ
  end; simpl in Hk, Hn.
  - destruct (List.find _ _) as [finishedProduct|].
    + destruct (updateDoc _ _ _) as [m'|] eqn:E; simpl.
      * apply updateDoc_setStock_keeps in E as [Hk' Hn']. split.
        { by eapply keepsDocuments_trans. }
        intros j d' Hj Hd'. apply Hn, Hn' in Hj. congruence.
      * split; [done|]. intros j d' Hj Hd'. apply Hn in Hj. congruence.
    + simpl. unfold addDoc. split.
      * intros j d Hd. destruct (Hk j d Hd) as (d' & Hd' & Hs).
        exists d'. split; [|done]. rewrite lookup_insert_ne; [done|].
        intros <-. pose proof (is_fresh (dom m)) as Hf.
        apply not_elem_of_dom in Hf. congruence.
      * intros j d' Hj. apply Hn in Hj.
        destruct (decide (fresh (dom m) = j)) as [<-|Hne].
        { rewrite lookup_insert_eq. by intros [= <-]. }
        rewrite lookup_insert_ne by done. congruence.
  - simpl. split; [done|]. intros j d' Hj Hd'. apply Hn in Hj. congruence.
Qed.

(** X8.  A production writes to documents of its snapshot only: a document
    whose id is not in the snapshot is left as it is. *)
Theorem production_writes_snapshot_items_only (ready confirm : bool)
    (inventoryItems : list inventoryItem) (recipe : recipe)
    (quantityToProduce : number) (inventory : gmap string Inventory.doc)
    (j : string) (d : Inventory.doc) :
  j ∉ inventoryItems.*1 → inventory !! j = Some d →
  (handleConfirmProduction ready inventoryItems confirm recipe
     quantityToProduce inventory).2 !! j = Some d.
Proof.
  intros Hj Hd. unfold handleConfirmProduction.
  destruct ready; simpl; [|done].
  destruct (Number.le _ _); [done|].
  destruct (canProduce _); simpl; [|done].
  destruct confirm; simpl; [|done].
  assert (Forall (λ e, itemId e ≠ j)
            (deductions (checkIngredients inventoryItems quantityToProduce
                           (Recipe.ingredients recipe.2)))) as Hds.
  { eapply Forall_impl; [apply deductions_in_snapshot|].
    simpl. intros e He Heq. apply Hj. by rewrite <- Heq. }
  pose proof (applyDeductions_other _ inventory j Hds) as Hother.
  destruct (applyDeductions _ inventory) as [[] m] eqn:Happ;
    simpl in Hother; [|by rewrite <- Hd].
  rewrite <- Hd, <- Hother.
  destruct (List.find _ _) as [finishedProduct|] eqn:Hfind.
  - destruct (updateDoc _ _ _) as [m'|] eqn:E; simpl; [|done].
    rewrite (updateDoc_lookup _ _ _ _ j E).
    destruct (String.eqb_spec j finishedProduct.1) as [->|]; [|done].
    exfalso. apply Hj. apply find_some in Hfind as [Hin _].
    apply list_elem_of_fmap. exists finishedProduct. split; [done|].
    by apply list_elem_of_In.
  - simpl. unfold addDoc. apply lookup_insert_ne. intros <-.
    pose proof (is_fresh (dom m)) as Hf. apply not_elem_of_dom in Hf.
    congruence.
Qed.

Lemma production_writes_snapshot_items_only_witness :
  (handleConfirmProduction true oneBagItems true torta (Num 1)
     (<["p1" := tortas]> oneBag)).2 !! "p1" = Some tortas.
Proof.
  apply production_writes_snapshot_items_only.
  - intros H. apply list_elem_of_In in H. simpl in H.
    destruct H as [H|[]]. discriminate H.
  - reflexivity.
Defined.

(** X9.  Nothing is written without the confirmation of the user: when the
    dialog is declined, a production leaves the inventory as it is, and a
    change of status leaves the inventory and the orders as they are; and
    neither reports a success. *)
Theorem nothing_written_without_confirmation (ready : bool)
    (inventoryItems : list inventoryItem) (recipes : list recipe)
    (recipe : recipe) (quantityToProduce : number)
    (orderId currentStatus : string) (selectedRecipeId : option string)
    (productDescription : string) (quantity : number)
    (inventory : gmap string Inventory.doc)
    (salesOrders : gmap string Order.doc) :
  let production :=
    handleConfirmProduction ready inventoryItems false recipe
      quantityToProduce inventory in
  let order :=
    handleChangeOrderStatus ready inventoryItems recipes false orderId
      currentStatus selectedRecipeId productDescription quantity inventory
      salesOrders in
  production.2 = inventory ∧ production.1 ≠ Confirmed
  ∧ order.1.2 = inventory ∧ order.2 = salesOrders
  ∧ order.1.1 ≠ Completed ∧ order.1.1 ≠ Reopened.
Proof.
  unfold handleConfirmProduction, handleChangeOrderStatus.
  destruct ready; simpl; [|done].
  split; [|split].
  - destruct (Number.le _ _); [done|]. by destruct (canProduce _).
  - destruct (Number.le _ _); [done|]. by destruct (canProduce _).
  - destruct (String.eqb (if String.eqb currentStatus _ then _ else _) _);
      [|done].
    destruct (List.find _ _) as [finishedProduct|]; [|done].
    by destruct (Number.lt _ _).
Qed.



Lemma lastWrite_last (ds : list deduction) (e : deduction) :
  lastWrite (ds ++ [e]) (itemId e) = Some (newStock e).
Proof.
  induction ds as [|e' ds IH]; simpl.
  - by rewrite String.eqb_refl.
  - by rewrite IH.
Qed.

(** X11.  The stock that a confirmed production leaves in the item of the
    last ingredient is computed from that ingredient and the snapshot
    alone: when an earlier ingredient names the same item, its deduction is
    written over. *)
Theorem production_last_deduction_wins
    (inventoryItems : list inventoryItem) (recipe : recipe)
    (quantityToProduce : number)
    (inventory inventory1 : gmap string Inventory.doc)
    (ings : list Ingredient.ingredient) (ing : Ingredient.ingredient) :
  handleConfirmProduction true inventoryItems true recipe quantityToProduce
    inventory = (Confirmed, inventory1) →
  Recipe.ingredients recipe.2 = ings ++ [ing] →
  ∃ (item : inventoryItem) (required : number),
    List.find (isNamed "raw_material" (Ingredient.name ing)) inventoryItems
    = Some item
    ∧ convertUnits (Number.mul (Ingredient.quantity ing) quantityToProduce)
        (Ingredient.unit ing) (Inventory.unit_type item.2)
      = Some required
    ∧ ((∀ finishedProduct,
          List.find (isNamed "finished_good" (Recipe.name recipe.2))
            inventoryItems = Some finishedProduct →
          finishedProduct.1 ≠ item.1) →
       Inventory.stock <$> inventory1 !! item.1
       = Some (Number.div
                 (Number.sub
                    (Number.mul (Inventory.stock item.2)
                       (Inventory.unit_value item.2))
                    required)
                 (Inventory.unit_value item.2))).
Proof.
  intros H Hings. apply handleConfirmProduction_Confirmed in H.
  destruct H as (_ & _ & _ & Hp & inventory' & Happ & Hfg).
  destruct (checkIngredients_plan inventoryItems quantityToProduce
              (Recipe.ingredients recipe.2)) as (_ & Hc & Hd).
  rewrite Hp in Hc. symmetry in Hc. apply bool_decide_eq_true in Hc.
  rewrite (Hd Hp) in Happ. clear Hd. rewrite Hings in Hc, Happ.
  rewrite map_app in Hc, Happ. unfold shortagesOf in Hc.
  unfold entriesOf in Happ. rewrite omap_app in Hc. rewrite omap_app in Happ.
  apply app_eq_nil in Hc as [_ Hc]. simpl in Hc, Happ.
  destruct (assess inventoryItems quantityToProduce ing) as [s|e] eqn:He;
    [done|].
  apply assess_inr in He.
  destruct He as (item & required & Hfind & Hconv & _ & Hid & Hnew).
  exists item, required. split; [done|]. split; [done|]. intros Hne.
  assert (Inventory.stock <$> inventory' !! item.1 = Some (newStock e))
    as Hstock.
  { rewrite (applyDeductions_lookup _ _ _ item.1 Happ), <- Hid.
    rewrite lastWrite_last. simpl.
    assert ((applyDeductions (omap _ (map _ ings) ++ [e]) inventory).1
            = true) as Hok by by rewrite Happ.
    apply applyDeductions_success in Hok.
    apply Forall_app in Hok as [_ Hok].
    apply Forall_cons in Hok as [[d Hd] _]. by rewrite Hd. }
  rewrite <- Hnew, <- Hstock.
  destruct (List.find (isNamed "finished_good" _) _) as [finishedProduct|].
  - destruct Hfg as (d & Hd & ->).
    rewrite lookup_insert_ne; [done|]. by apply Hne.
  - subst inventory1. unfold addDoc. rewrite lookup_insert_ne; [done|].
    intros Heq. pose proof (is_fresh (dom inventory')) as Hf.
    apply not_elem_of_dom in Hf. rewrite Heq in Hf.
    by rewrite Hf in Hstock.
Qed.

Lemma production_last_deduction_wins_witness :
  Inventory.stock
    <$> (handleConfirmProduction true oneBagItems true panDoble (Num 1)
           oneBag).2 !! "h1"
  = Some (Number.div
            (Number.sub (Number.mul (Num 1) (Num 500))
               (Number.mul (Num 200) (Num 1)))
            (Num 500)).
Proof.
  destruct (production_last_deduction_wins oneBagItems panDoble (Num 1)
              oneBag
              (handleConfirmProduction true oneBagItems true panDoble (Num 1)
                 oneBag).2
              [ {| Ingredient.name := "harina"; Ingredient.quantity := Num 100;
                   Ingredient.unit := "g" |} ]
              {| Ingredient.name := "Harina"; Ingredient.quantity := Num 200;
                 Ingredient.unit := "g" |})
    as (item & required & Hfind & Hconv & Hstock).
  - vm_compute. reflexivity.
  - reflexivity.
  - vm_compute in Hfind. injection Hfind as <-.
    vm_compute in Hconv. injection Hconv as <-.
    assert (∀ finishedProduct,
              List.find (isNamed "finished_good" (Recipe.name panDoble.2))
                oneBagItems = Some finishedProduct →
              finishedProduct.1 ≠ "h1") as Hother
      by (intros finishedProduct Hf; vm_compute in Hf; discriminate Hf).
    pose proof (Hstock Hother) as Hs.
    vm_compute in Hs. vm_compute. exact Hs.
Defined.

(** ** The inventory page *)

Lemma accepted_stock (n : number) :
  isNaN n || Number.lt n (Num 0) = false → Number.nonneg n.
Proof.
  destruct n as [x|]; [|done]. simpl. intros H.
  apply negb_false_iff, Qle_bool_iff in H. done.
Qed.

Lemma accepted_unit_value (n : number) :
  isNaN n || Number.le n (Num 0) = false → Number.positive n.
Proof.
  destruct n as [x|]; [|done]. cbn [isNaN orb]. intros H.
  by apply le_Num in H.
Qed.

(** X13.  A stock typed into a table of the inventory page is written only
    when it is a number not below zero, and only to a document that
    exists: the edit changes the stock of that one document and nothing
    else, creates no document, and keeps every document valid (a stock
    that is a number not below zero, a [unit_value] above zero). *)
Theorem handleStockChange_keeps_valid (parseFloat : string → number)
    (itemId newStockValue : string) (inventory : gmap string Inventory.doc) :
  let r :=
    InventoryPage.handleStockChange parseFloat itemId newStockValue
      inventory in
  (map_Forall (λ _, validDoc) inventory → map_Forall (λ _, validDoc) r.2)
  ∧ (∀ j, j ≠ itemId → r.2 !! j = inventory !! j)
  ∧ match inventory !! itemId with
    | None => r.2 !! itemId = None ∧ r.1 ≠ InventoryPage.StockWritten
    | Some d =>
        if isNaN (parseFloat newStockValue)
           || Number.lt (parseFloat newStockValue) (Num 0)
        then r = (InventoryPage.InvalidStock, inventory)
        else r = (InventoryPage.StockWritten,
                  <[itemId := Inventory.setStock (parseFloat newStockValue)
                                d]> inventory)
             ∧ Number.nonneg (parseFloat newStockValue)
    end.
Proof.
  unfold InventoryPage.handleStockChange, updateDoc.
  destruct (isNaN _ || Number.lt _ _) eqn:Hok; simpl.
  - split; [done|]. split; [done|]. by destruct (inventory !! itemId).
  - apply accepted_stock in Hok.
    destruct (inventory !! itemId) as [d|] eqn:Hd; simpl; [|done].
    split; [|split; [|done]].
    + intros Hinv. apply map_Forall_insert_2; [|done].
      split; [done|]. by apply (Hinv itemId d).
    + intros j Hne. by rewrite lookup_insert_ne.
Qed.

(** X14.  The form of the inventory page writes valid raw materials only:
    whatever [parseFloat] returns for the two numbers, a save that adds or
    updates writes one document, under a new id or the id being edited,
    and leaves every other document as it is; the document has the name
    and the unit of the form, neither blank, the two numbers, a stock that
    is not below zero, a [unit_value] above zero, and the type
    'raw_material'; the form is then reset.  Any other outcome leaves the
    form and the inventory as they are.  So the save keeps every document
    valid. *)
Theorem handleAddOrUpdateItem_writes_valid_raw_material
    (parseFloat : string → number) (f : InventoryPage.form)
    (inventory : gmap string Inventory.doc) :
  let r := InventoryPage.handleAddOrUpdateItem parseFloat f inventory in
  let written id d :=
    r.2 = <[id := d]> inventory
    ∧ r.1.2 = InventoryPage.resetForm
    ∧ d = {| Inventory.name := InventoryPage.newItemName f;
             Inventory.unit_value :=
               parseFloat (InventoryPage.newItemUnitValue f);
             Inventory.unit_type := InventoryPage.newItemUnitType f;
             Inventory.stock := parseFloat (InventoryPage.newItemStock f);
             Inventory.type := "raw_material" |}
    ∧ validDoc d
    ∧ trim (Inventory.name d) ≠ EmptyString
    ∧ trim (Inventory.unit_type d) ≠ EmptyString in
  match r.1.1 with
  | InventoryPage.Added => ∃ id d, written id d ∧ inventory !! id = None
  | InventoryPage.Updated =>
      ∃ id d, written id d ∧ InventoryPage.editingItemId f = Some id
              ∧ is_Some (inventory !! id)
  | _ => r.1.2 = f ∧ r.2 = inventory
  end
  ∧ (map_Forall (λ _, validDoc) inventory → map_Forall (λ _, validDoc) r.2).
Proof.
  unfold InventoryPage.handleAddOrUpdateItem.
  destruct (_ || _ || _ || _) eqn:Hblank; [done|].
  apply orb_false_iff in Hblank as [Hblank _].
  apply orb_false_iff in Hblank as [Hblank Hunit].
  apply orb_false_iff in Hblank as [Hname _].
  apply String.eqb_neq in Hname, Hunit.
  cbv zeta.
  destruct (_ || _ || _ || _) eqn:Hnum; [done|].
  rewrite <- orb_assoc in Hnum.
  apply orb_false_iff in Hnum as [Hu Hs].
  apply accepted_unit_value in Hu. apply accepted_stock in Hs.
  set (d := Inventory.Doc _ _ _ _ _).
  assert (validDoc d) as Hvalid by done.
  destruct (if isSet _ then _ else None) as [id|] eqn:Hid.
  - unfold updateDoc. destruct (inventory !! id) eqn:Hold; simpl; [|done].
    split.
    + exists id, d. split; [by split; [|split; [|split; [|split; [|split]]]]|].
      split; [|done]. destruct (isSet _); [done|discriminate Hid].
    + intros Hinv. by apply map_Forall_insert_2.
  - simpl. split.
    + exists (fresh (dom inventory)), d.
      split; [by split; [|split; [|split; [|split; [|split]]]]|].
      apply not_elem_of_dom, is_fresh.
    + intros Hinv. by apply map_Forall_insert_2.
Qed.

(** X15.  An item that is edited with the form is saved as a raw material,
    whatever its type was: after [handleEditItem] and a save that updates
    it, the document has the type 'raw_material', and the inventory
    listener of the sales-note page, which keeps the finished goods, no
    longer has it. *)
Theorem edited_item_becomes_raw_material (parseFloat : string → number)
    (toString : number → string) (item : inventoryItem)
    (inventory inventory' : gmap string Inventory.doc)
    (f' : InventoryPage.form) :
  InventoryPage.handleAddOrUpdateItem parseFloat
    (InventoryPage.handleEditItem toString item) inventory
  = (InventoryPage.Updated, f', inventory') →
  (∃ d', inventory' !! item.1 = Some d'
         ∧ Inventory.type d' = "raw_material"
         ∧ Inventory.name d' = Inventory.name item.2)
  ∧ ∀ d, ¬ In (item.1, d)
             (SalesNotePage.inventoryListener (snapshot inventory')).
Proof.
  unfold InventoryPage.handleAddOrUpdateItem.
  destruct (_ || _ || _ || _); [done|]. simpl.
  destruct (_ || _ || _ || _); [done|].
  set (written := Inventory.Doc _ _ _ _ _).
  destruct (negb _); [|done].
  unfold updateDoc. destruct (inventory !! item.1) as [old|]; [|done].
  intros [= <- <-].
  assert (<[item.1 := written]> inventory !! item.1 = Some written) as Hw
    by apply lookup_insert_eq.
  split; [by exists written|].
  intros d Hin. unfold SalesNotePage.inventoryListener, snapshot in Hin.
  apply filter_In in Hin as [Hin Hty]. apply list_elem_of_In in Hin.
  apply elem_of_map_to_list in Hin. simpl in Hin, Hty.
  rewrite Hw in Hin. injection Hin as <-. discriminate Hty.
Qed.

Lemma edited_item_becomes_raw_material_witness :
  ∃ d', (<["c1" := {| Inventory.name := "Caja"; Inventory.unit_value := Num 5;
                      Inventory.unit_type := "unidad";
                      Inventory.stock := Num 5;
                      Inventory.type := "raw_material" |}]> ∅
         : gmap string Inventory.doc) !! "c1" = Some d'
        ∧ Inventory.type d' = "raw_material"
        ∧ Inventory.name d' = "Caja".
Proof.
  apply (edited_item_becomes_raw_material parseDigits (λ _, "5")
           ("c1", {| Inventory.name := "Caja"; Inventory.unit_value := Num 5;
                     Inventory.unit_type := "unidad";
                     Inventory.stock := Num 5;
                     Inventory.type := "finished_good" |})
           {[ "c1" := {| Inventory.name := "Caja";
                         Inventory.unit_value := Num 5;
                         Inventory.unit_type := "unidad";
                         Inventory.stock := Num 5;
                         Inventory.type := "finished_good" |} ]}
           _ InventoryPage.resetForm).
  vm_compute. reflexivity.
Defined.

(** ** The recipes page *)

Lemma filterFrom_above {A : Type} (index k : nat) (l : list A) :
  (index < k)%nat →
  filterFrom (λ _ i, negb (i =? index)%nat) k l = l.
Proof.
  revert k. induction l as [|x l IH]; intros k Hk; [done|]. simpl.
  destruct (Nat.eqb_spec k index) as [->|_]; [lia|]. simpl.
  f_equal. apply IH. lia.
Qed.

Lemma filterFrom_delete {A : Type} (index k : nat) (l : list A) :
  filterFrom (λ _ i, negb (i =? k + index)%nat) k l = delete index l.
Proof.
  revert index k. induction l as [|x l IH]; intros index k; [done|]. simpl.
  destruct index as [|index].
  - rewrite Nat.add_0_r, Nat.eqb_refl. simpl.
    apply filterFrom_above. lia.
  - destruct (Nat.eqb_spec k (k + S index)) as [|_]; [lia|]. simpl.
    f_equal. rewrite <- (IH index (S k)). f_equal.
    replace (S k + index)%nat with (k + S index)%nat by lia. done.
Qed.

Lemma mapFrom_above {A : Type} (g : A → A) (index k : nat) (l : list A) :
  (index < k)%nat →
  mapFrom (λ x i, if (i =? index)%nat then g x else x) k l = l.
Proof.
  revert k. induction l as [|x l IH]; intros k Hk; [done|]. simpl.
  destruct (Nat.eqb_spec k index) as [->|_]; [lia|].
  f_equal. apply IH. lia.
Qed.

Lemma mapFrom_alter {A : Type} (g : A → A) (index k : nat) (l : list A) :
  mapFrom (λ x i, if (i =? k + index)%nat then g x else x) k l
  = alter g index l.
Proof.
  revert index k. induction l as [|x l IH]; intros index k; [done|]. simpl.
  destruct index as [|index].
  - rewrite Nat.add_0_r, Nat.eqb_refl.
    change (alter g 0 (x :: l)) with (g x :: l). f_equal.
    apply mapFrom_above. lia.
  - destruct (Nat.eqb_spec k (k + S index)) as [|_]; [lia|].
    change (alter g (S index) (x :: l)) with (x :: alter g index l).
    f_equal. rewrite <- (IH index (S k)).
    replace (S k + index)%nat with (k + S index)%nat by lia. done.
Qed.

Lemma filterFrom_delete_0 {A : Type} (index : nat) (l : list A) :
  filterFrom (λ _ i, negb (i =? index)%nat) 0 l = delete index l.
Proof. exact (filterFrom_delete index 0 l). Qed.

Lemma mapFrom_alter_0 {A : Type} (g : A → A) (index : nat) (l : list A) :
  mapFrom (λ x i, if (i =? index)%nat then g x else x) 0 l = alter g index l.
Proof. exact (mapFrom_alter g index 0 l). Qed.

(** X16.  The button that removes a row of the recipe form removes the row
    at its index and no other: the rows before it stay where they are, the
    rows after it move up by one, an index past the last row changes
    nothing, and removing the row that [handleAddIngredient] has just
    added gives the form back. *)
Theorem handleRemoveIngredient_removes_one_row (index : nat)
    (f : RecipesPage.form) :
  let l := RecipesPage.newIngredients f in
  let l' :=
    RecipesPage.newIngredients (RecipesPage.handleRemoveIngredient index f) in
  (∀ i, (i < index)%nat → l' !! i = l !! i)
  ∧ (∀ i, (index ≤ i)%nat → l' !! i = l !! S i)
  ∧ ((length l ≤ index)%nat → RecipesPage.handleRemoveIngredient index f = f)
  ∧ RecipesPage.handleRemoveIngredient (length l)
      (RecipesPage.handleAddIngredient f) = f.
Proof.
  unfold RecipesPage.handleRemoveIngredient, RecipesPage.handleAddIngredient.
  simpl. rewrite !filterFrom_delete_0.
  split; [|split; [|split]].
  - intros i Hi. by apply list_lookup_delete_lt.
  - intros i Hi. by apply list_lookup_delete_ge.
  - intros Hlen. destruct f as [id name type l]. simpl in *.
    unfold RecipesPage.setIngredients. simpl. f_equal.
    rewrite delete_take_drop, take_ge, drop_ge by lia. apply app_nil_r.
  - destruct f as [id name type l]. simpl.
    unfold RecipesPage.setIngredients. simpl. f_equal.
    rewrite delete_middle. apply app_nil_r.
Qed.

(** X17.  A change typed into a row of the recipe form sets the one field
    of the row at its index: the number of rows and every other row stay
    as they are, and an index past the last row changes nothing. *)
Theorem handleIngredientChange_changes_one_row (index : nat)
    (c : RecipesPage.change) (f : RecipesPage.form) :
  let l := RecipesPage.newIngredients f in
  let l' :=
    RecipesPage.newIngredients
      (RecipesPage.handleIngredientChange index c f) in
  length l' = length l
  ∧ l' !! index = RecipesPage.applyChange c <$> l !! index
  ∧ (∀ i, i ≠ index → l' !! i = l !! i)
  ∧ ((length l ≤ index)%nat →
     RecipesPage.handleIngredientChange index c f = f).
Proof.
  unfold RecipesPage.handleIngredientChange. simpl.
  rewrite !mapFrom_alter_0.
  split; [|split; [|split]].
  - apply length_alter.
  - apply list_lookup_alter_eq.
  - intros i Hi. by apply list_lookup_alter_ne.
  - intros Hlen. destruct f as [id name type l]. simpl in *.
    unfold RecipesPage.setIngredients. simpl. f_equal.
    apply list_eq. intros i. destruct (decide (index = i)) as [<-|Hne].
    + rewrite list_lookup_alter_eq, lookup_ge_None_2; done.
    + by rewrite list_lookup_alter_ne.
Qed.

Lemma positive_lt (n : number) :
  Number.lt (Num 0) n = true ↔ Number.positive n.
Proof.
  destruct n as [x|]; simpl; [|done].
  rewrite negb_true_iff. split.
  - intros H. apply Qnot_le_lt. intros Hle.
    apply Qle_bool_iff in Hle. congruence.
  - intros H. destruct (Qle_bool x 0) eqn:E; [|done].
    apply Qle_bool_iff in E. lra.
Qed.

Lemma existsb_isNamed (kind name : string) (items : list inventoryItem) :
  existsb (isNamed kind name) items = true
  ↔ ∃ item, In item items ∧ isNamed kind name item = true.
Proof. apply existsb_exists. Qed.

Lemma isValidRow_saved (items : list inventoryItem) (ing : RecipesPage.row) :
  RecipesPage.isValidRow ing = true →
  existsb (isNamed "raw_material" (RecipesPage.name ing)) items = true →
  savedIngredient items (RecipesPage.toIngredient ing).
Proof.
  unfold RecipesPage.isValidRow, isEmpty. intros Hvalid Hfound.
  apply andb_true_iff in Hvalid as [Hvalid Hunit].
  apply andb_true_iff in Hvalid as [Hname Hq].
  apply negb_true_iff, String.eqb_neq in Hname, Hunit.
  apply positive_lt in Hq. apply existsb_isNamed in Hfound.
  by repeat split.
Qed.

Lemma saved_isValidRow (items : list inventoryItem)
    (ing : Ingredient.ingredient) :
  savedIngredient items ing →
  RecipesPage.isValidRow (RecipesPage.toRow ing) = true
  ∧ existsb (isNamed "raw_material" (Ingredient.name ing)) items = true
  ∧ RecipesPage.toIngredient (RecipesPage.toRow ing) = ing.
Proof.
  intros (Hname & Hq & Hunit & Hfound).
  unfold RecipesPage.isValidRow, RecipesPage.toRow, RecipesPage.quantityOf,
    parseFloat, isEmpty.
  cbn [RecipesPage.name RecipesPage.quantity RecipesPage.unit].
  apply String.eqb_neq in Hname, Hunit. rewrite Hname, Hunit.
  apply positive_lt in Hq. rewrite Hq.
  apply existsb_isNamed in Hfound. by destruct ing.
Qed.

Lemma filter_nil_Forall {A : Type} (p : A → bool) (l : list A) :
  List.filter (λ x, negb (p x)) l = [] → Forall (λ x, p x = true) l.
Proof.
  induction l as [|x l IH]; simpl; [by constructor|].
  destruct (p x) eqn:E; simpl; [|done].
  intros H. constructor; auto.
Qed.

Lemma filter_all {A : Type} (p : A → bool) (l : list A) :
  Forall (λ x, p x = true) l → List.filter p l = l.
Proof.
  induction 1 as [|x l Hx _ IH]; simpl; [done|]. by rewrite Hx, IH.
Qed.

Lemma filter_none {A : Type} (p : A → bool) (l : list A) :
  Forall (λ x, p x = true) l → List.filter (λ x, negb (p x)) l = [].
Proof.
  induction 1 as [|x l Hx _ IH]; simpl; [done|]. by rewrite Hx.
Qed.

(** X18.  What the form of the recipes page saves is a recipe that can be
    planned: a save that adds or updates writes one document, under a new
    id or the id being edited, with a name that is not blank and at least
    one ingredient, each with a name and a unit that are not blank, a
    quantity above zero, and a raw material of the snapshot with its name;
    the form is then reset.  Any other outcome leaves the form and the
    collection as they are. *)
Theorem saved_recipe_is_well_formed (f : RecipesPage.form)
    (inventoryItems : list inventoryItem)
    (recipes : gmap string Recipe.doc) :
  let r := RecipesPage.handleAddOrUpdateRecipe f inventoryItems recipes in
  let written id w :=
    r.2 = <[id := w]> recipes
    ∧ r.1.2 = RecipesPage.resetForm
    ∧ Recipe.name w = RecipesPage.newRecipeName f
    ∧ Recipe.type w = RecipesPage.newRecipeType f
    ∧ trim (Recipe.name w) ≠ EmptyString
    ∧ Recipe.ingredients w ≠ []
    ∧ Forall (savedIngredient inventoryItems) (Recipe.ingredients w) in
  match r.1.1 with
  | RecipesPage.Added => ∃ id w, written id w ∧ recipes !! id = None
  | RecipesPage.Updated =>
      ∃ id w, written id w ∧ RecipesPage.editingRecipeId f = Some id
              ∧ is_Some (recipes !! id)
  | _ => r.1.2 = f ∧ r.2 = recipes
  end.
Proof.
  unfold RecipesPage.handleAddOrUpdateRecipe, isEmpty.
  destruct (String.eqb_spec (trim (RecipesPage.newRecipeName f)) EmptyString)
    as [|Hname]; [done|]. cbv zeta.
  set (filtered := List.filter RecipesPage.isValidRow _).
  destruct (Nat.eqb_spec (length filtered) 0) as [|Hlen]; [done|].
  set (missing := List.filter _ filtered).
  destruct (Nat.ltb_spec 0 (length missing)) as [|Hmissing]; [done|].
  assert (missing = []) as Hnone by (destruct missing; [done|simpl in *; lia]).
  apply filter_nil_Forall in Hnone.
  set (w := Recipe.Doc _ _ _).
  assert (Recipe.ingredients w ≠ []
          ∧ Forall (savedIngredient inventoryItems) (Recipe.ingredients w))
    as [Hne Hall].
  { simpl. split.
    - destruct filtered; [done|]. done.
    - apply Forall_fmap. unfold filtered in *.
      apply Forall_forall. intros ing Hin.
      pose proof (proj1 (Forall_forall _ _) Hnone ing Hin) as Hfound.
      apply list_elem_of_In, filter_In in Hin as [_ Hvalid].
      by apply isValidRow_saved. }
  destruct (if isSet _ then _ else None) as [id|] eqn:Hid.
  - unfold updateDoc. destruct (recipes !! id) eqn:Hold; simpl; [|done].
    exists id, w. split; [by repeat split|].
    split; [|done]. destruct (isSet _); [done|discriminate Hid].
  - simpl. exists (fresh (dom recipes)), w. split; [by repeat split|].
    apply not_elem_of_dom, is_fresh.
Qed.

(** X19.  A recipe whose ingredients are as the form saves them is
    never short of an ingredient that is not found, when it is produced
    against the snapshot it was saved against: whatever the quantity, the
    shortages that [handleConfirmProduction] reports are of conversion or
    of stock. *)
Theorem production_finds_saved_ingredients (ready confirm : bool)
    (inventoryItems : list inventoryItem) (recipe : recipe)
    (quantityToProduce : number) (inventory : gmap string Inventory.doc)
    (messages : list shortage) :
  Forall (savedIngredient inventoryItems) (Recipe.ingredients recipe.2) →
  (handleConfirmProduction ready inventoryItems confirm recipe
     quantityToProduce inventory).1 = Shortages messages →
  ∀ name, ¬ In (NotFound name) messages.
Proof.
  intros Hsaved Hout name Hin.
  assert (messages
          = shortageMessages
              (checkIngredients inventoryItems quantityToProduce
                 (Recipe.ingredients recipe.2))) as ->.
  { unfold handleConfirmProduction in Hout.
    destruct (negb ready); [done|].
    destruct (Number.le _ _); [done|]. cbv zeta in Hout.
    destruct (negb (canProduce _)); [by injection Hout|].
    destruct (negb confirm); [done|].
    destruct (applyDeductions _ _) as [[] ?]; [|done].
    destruct (find _ _); [|done]. by destruct (updateDoc _ _ _). }
  destruct (checkIngredients_plan inventoryItems quantityToProduce
              (Recipe.ingredients recipe.2)) as [Hmsg _].
  rewrite Hmsg in Hin. unfold shortagesOf in Hin.
  apply list_elem_of_In, list_elem_of_omap in Hin as (r & Hr & Hs).
  destruct r as [s|]; [|done]. injection Hs as ->.
  apply list_elem_of_In, in_map_iff in Hr as (ing & Hassess & Hing).
  apply list_elem_of_In in Hing.
  pose proof (proj1 (Forall_forall _ _) Hsaved ing Hing)
    as (_ & _ & _ & item & Hitem & Hnamed).
  unfold assess in Hassess.
  destruct (find _ inventoryItems) eqn:Hfind.
  - destruct (convertUnits _ _ _); [|done]. by destruct (Number.lt _ _).
  - apply (find_none _ _ Hfind) in Hitem. congruence.
Qed.

Lemma production_finds_saved_ingredients_witness :
  ¬ In (NotFound "harina")
      [Insufficient "harina" (Num (500 * 2)) (Num (1 * 500)) "g"].
Proof.
  apply (production_finds_saved_ingredients true true oneBagItems torta
           (Num 2) oneBag).
  - repeat constructor; try done. exists ("h1", harina). by split; [left|].
  - vm_compute. reflexivity.
Defined.

(** X20.  Opening a stored recipe in the form and saving it at once gives
    the collection back: for a recipe with an id and a name that are not
    empty, and ingredients as the form saves them, [handleEditRecipe]
    followed by [handleAddOrUpdateRecipe] reports an update, resets the
    form and leaves every recipe as it was. *)
Theorem edit_then_save_recipe_round_trip
    (inventoryItems : list inventoryItem) (recipes : gmap string Recipe.doc)
    (id : string) (d : Recipe.doc) :
  id ≠ EmptyString →
  recipes !! id = Some d →
  trim (Recipe.name d) ≠ EmptyString →
  Recipe.ingredients d ≠ [] →
  Forall (savedIngredient inventoryItems) (Recipe.ingredients d) →
  RecipesPage.handleAddOrUpdateRecipe (RecipesPage.handleEditRecipe (id, d))
    inventoryItems recipes
  = (RecipesPage.Updated, RecipesPage.resetForm, recipes).
Proof.
  intros Hid Hd Hname Hne Hsaved.
  unfold RecipesPage.handleAddOrUpdateRecipe, RecipesPage.handleEditRecipe,
    isEmpty. simpl.
  apply String.eqb_neq in Hname. rewrite Hname.
  destruct (Recipe.ingredients d) as [|ing0 ings] eqn:Hings; [done|].
  rewrite <- Hings in *. clear Hne.
  replace (0 <? length (Recipe.ingredients d))%nat with true
    by (by rewrite Hings).
  assert (Forall (λ x, RecipesPage.isValidRow x = true)
            (RecipesPage.toRow <$> Recipe.ingredients d)) as Hvalid.
  { apply Forall_fmap. eapply Forall_impl; [exact Hsaved|].
    intros ing Hing. by apply saved_isValidRow in Hing as [? _]. }
  rewrite (filter_all _ _ Hvalid).
  replace (length (RecipesPage.toRow <$> Recipe.ingredients d) =? 0)%nat
    with false by (by rewrite Hings).
  rewrite filter_none.
  2:{ apply Forall_fmap. eapply Forall_impl; [exact Hsaved|].
      intros ing Hing. by apply saved_isValidRow in Hing as (_ & ? & _). }
  simpl. apply String.eqb_neq in Hid. rewrite Hid. simpl.
  unfold updateDoc. rewrite Hd.
  replace (RecipesPage.toIngredient <$>
             (RecipesPage.toRow <$> Recipe.ingredients d))
    with (Recipe.ingredients d).
  2:{ rewrite <- list_fmap_compose. symmetry.
      rewrite <- (list_fmap_id (Recipe.ingredients d)) at 2.
      apply Forall_fmap_ext_1. eapply Forall_impl; [exact Hsaved|].
      intros ing Hing. by apply saved_isValidRow in Hing as (_ & _ & ?). }
  f_equal. destruct d. simpl. by apply insert_id.
Qed.

Lemma edit_then_save_recipe_round_trip_witness :
  RecipesPage.handleAddOrUpdateRecipe (RecipesPage.handleEditRecipe torta)
    oneBagItems {[ "r1" := torta.2 ]}
  = (RecipesPage.Updated, RecipesPage.resetForm, {[ "r1" := torta.2 ]}).
Proof.
  apply (edit_then_save_recipe_round_trip oneBagItems {[ "r1" := torta.2 ]}
           "r1" torta.2); try done.
  repeat constructor; try done. exists ("h1", harina). by split; [left|].
Defined.

(** ** The sales-note page *)

(** X21.  What the form of the sales-note page saves is a pending order:
    whatever [parseInt] returns for the quantity, a save that adds or
    updates writes one document, under a new id or the id being edited,
    with the status 'Pendiente', a quantity above zero, a customer and a
    date that are not blank, and a recipe or a description of the product;
    the form is then reset.  Any other outcome leaves the form and the
    collection as they are. *)
Theorem saved_order_is_pending (parseInt : string → number)
    (f : SalesNotePage.form) (salesOrders : gmap string Order.doc) :
  let r := SalesNotePage.handleAddOrUpdateOrder parseInt f salesOrders in
  let written id d :=
    r.2 = <[id := d]> salesOrders
    ∧ r.1.2 = SalesNotePage.resetForm
    ∧ savedOrder d
    ∧ Order.quantity d = parseInt (SalesNotePage.newOrderQuantity f) in
  match r.1.1 with
  | SalesNotePage.Added => ∃ id d, written id d ∧ salesOrders !! id = None
  | SalesNotePage.Updated =>
      ∃ id d, written id d ∧ SalesNotePage.editingOrderId f = Some id
              ∧ is_Some (salesOrders !! id)
  | _ => r.1.2 = f ∧ r.2 = salesOrders
  end.
Proof.
  unfold SalesNotePage.handleAddOrUpdateOrder.
  destruct (_ || _ || _ || _) eqn:Hblank; [done|].
  apply orb_false_iff in Hblank as [Hblank Hproduct].
  apply orb_false_iff in Hblank as [Hblank Hdate].
  apply orb_false_iff in Hblank as [Hcustomer _].
  apply String.eqb_neq in Hcustomer, Hdate. cbv zeta.
  destruct (isNaN _ || Number.le _ _) eqn:Hq; [done|].
  apply accepted_unit_value in Hq.
  set (d := Order.Doc _ _ _ _ _ _ _).
  assert (savedOrder d) as Hd.
  { unfold savedOrder. simpl. do 4 (split; [done|]).
    unfold isEmpty in *.
    destruct (String.eqb (SalesNotePage.selectedRecipeId f) EmptyString)
      eqn:Hsel; simpl in *.
    - right. by apply String.eqb_neq.
    - left. by rewrite Hsel. }
  destruct (if isSet _ then _ else None) as [id|] eqn:Hid.
  - unfold updateDoc. destruct (salesOrders !! id) eqn:Hold; simpl; [|done].
    exists id, d. split; [by split; [|split; [|split]]|].
    split; [|done]. destruct (isSet _); [done|discriminate Hid].
  - simpl. exists (fresh (dom salesOrders)), d.
    split; [by split; [|split; [|split]]|].
    apply not_elem_of_dom, is_fresh.
Qed.

(** X22.  An order that is edited with the form is pending again, whatever
    its status was: after [handleEditOrder] and a save that updates it, the
    document has the status 'Pendiente', and the customer, the type, the
    description, the date and the recipe it had. *)
Theorem edited_order_is_pending_again (parseInt : string → number)
    (toString : number → string) (order : string * Order.doc)
    (salesOrders salesOrders' : gmap string Order.doc)
    (f' : SalesNotePage.form) :
  SalesNotePage.handleAddOrUpdateOrder parseInt
    (SalesNotePage.handleEditOrder toString order) salesOrders
  = (SalesNotePage.Updated, f', salesOrders') →
  ∃ d', salesOrders' !! order.1 = Some d'
        ∧ Order.status d' = "Pendiente"
        ∧ Order.customerName d' = Order.customerName order.2
        ∧ Order.orderType d' = Order.orderType order.2
        ∧ Order.productDescription d' = Order.productDescription order.2
        ∧ Order.orderDate d' = Order.orderDate order.2
        ∧ Order.selectedRecipeId d'
          = (if isSet (Order.selectedRecipeId order.2)
             then Order.selectedRecipeId order.2 else None)
        ∧ ∀ j, j ≠ order.1 → salesOrders' !! j = salesOrders !! j.
Proof.
  unfold SalesNotePage.handleAddOrUpdateOrder.
  destruct (_ || _ || _ || _); [done|]. cbv zeta.
  destruct (isNaN _ || Number.le _ _); [done|].
  set (d := Order.Doc _ _ _ _ _ _ _). simpl.
  destruct (negb _); [|done].
  unfold updateDoc. destruct (salesOrders !! order.1) as [old|]; [|done].
  intros [= <- <-]. exists d.
  split; [apply lookup_insert_eq|]. do 5 (split; [done|]). split.
  - simpl. unfold isEmpty. by destruct (Order.selectedRecipeId order.2) as [i|];
      simpl; [destruct (String.eqb i EmptyString)|].
  - intros j Hj. by rewrite lookup_insert_ne.
Qed.

Lemma edited_order_is_pending_again_witness :
  ∃ d', ({[ "o1" := pedido "Pendiente" ]} : gmap string Order.doc) !! "o1"
        = Some d'
        ∧ Order.status d' = "Pendiente"
        ∧ Order.customerName d' = "Ana".
Proof.
  destruct (edited_order_is_pending_again parseDigits (λ _, "5")
              ("o1", pedido "Completado") {[ "o1" := pedido "Completado" ]}
              {[ "o1" := pedido "Pendiente" ]} SalesNotePage.resetForm)
    as (d' & Hd' & Hstatus & Hcustomer & _).
  - vm_compute. reflexivity.
  - exists d'. by repeat split.
Defined.

Lemma find_filter {A : Type} (p q : A → bool) (l : list A) :
  (∀ x, p x = true → q x = true) →
  List.find p (List.filter q l) = List.find p l.
Proof.
  intros Hpq. induction l as [|x l IH]; simpl; [done|].
  destruct (q x) eqn:Hq; simpl.
  - by rewrite IH.
  - destruct (p x) eqn:Hp; [|done]. apply Hpq in Hp. congruence.
Qed.

Lemma find_finished_goods (name : string) (items : list inventoryItem) :
  List.find (isNamed "finished_good" name)
    (SalesNotePage.inventoryListener items)
  = List.find (isNamed "finished_good" name) items.
Proof.
  apply find_filter. intros item H. unfold isNamed in H.
  by apply andb_true_iff in H as [_ H].
Qed.

(** X23.  The inventory listener of the sales-note page keeps the finished
    goods of the inventory, and [handleChangeOrderStatus] looks for a
    finished good: on the items that the listener keeps, the handler gives
    the outcome and the collections that it gives on all the items. *)
Theorem order_status_sees_finished_goods_only (ready confirm : bool)
    (itemsData : list inventoryItem) (recipes : list recipe)
    (orderId currentStatus : string) (selectedRecipeId : option string)
    (productDescription : string) (quantity : number)
    (inventory : gmap string Inventory.doc)
    (salesOrders : gmap string Order.doc) :
  handleChangeOrderStatus ready (SalesNotePage.inventoryListener itemsData)
    recipes confirm orderId currentStatus selectedRecipeId
    productDescription quantity inventory salesOrders
  = handleChangeOrderStatus ready itemsData recipes confirm orderId
      currentStatus selectedRecipeId productDescription quantity inventory
      salesOrders.
Proof.
  unfold handleChangeOrderStatus. by rewrite find_finished_goods.
Qed.

(** X24.  What is produced can be sold.  When a production is confirmed on
    a snapshot that agrees with the inventory, the inventory that it leaves
    holds a finished good with the name of the recipe; so an order for a
    product of that name, whatever the case of the letters, that is
    completed on the finished goods of that inventory is never refused as
    a product that is not found. *)
Theorem produced_good_is_found_by_orders (ready confirmProduction : bool)
    (inventoryItems : list inventoryItem) (recipes : list recipe)
    (recipe : recipe) (quantityToProduce : number)
    (inventory : gmap string Inventory.doc) (confirm : bool)
    (orderId : string)
    (selectedRecipeId : option string) (productDescription : string)
    (quantity : number) (salesOrders : gmap string Order.doc) :
  (∀ item, In item inventoryItems → inventory !! item.1 = Some item.2) →
  let r :=
    handleConfirmProduction ready inventoryItems confirmProduction recipe
      quantityToProduce inventory in
  r.1 = Confirmed →
  toLowerCase
    (productNameForDeduction recipes selectedRecipeId productDescription)
  = toLowerCase (Recipe.name recipe.2) →
  ∀ name,
    (handleChangeOrderStatus true
       (SalesNotePage.inventoryListener (snapshot r.2)) recipes confirm
       orderId "Pendiente" selectedRecipeId productDescription quantity r.2
       salesOrders).1.1
    ≠ ProductNotFound name.
Proof.
  intros Hfresh r Hout Hname name.
  destruct r as [o inventory1] eqn:Hr. simpl in Hout. subst o.
  apply handleConfirmProduction_Confirmed in Hr
    as (_ & _ & _ & _ & inventory' & Happ & Hfinished).
  assert (∃ j d, inventory1 !! j = Some d
                 ∧ Inventory.type d = "finished_good"
                 ∧ toLowerCase (Inventory.name d)
                   = toLowerCase (Recipe.name recipe.2)) as (j & d & Hd & Hty & Hn).
  { destruct (List.find _ inventoryItems) as [finishedProduct|] eqn:Hfind.
    - destruct Hfinished as (d & Hd & ->).
      apply find_some in Hfind as [Hin Hnamed].
      apply Hfresh in Hin.
      destruct (applyDeductions_keeps
                  (deductions
                     (checkIngredients inventoryItems quantityToProduce
                        (Recipe.ingredients recipe.2))) inventory)
        as [Hkeeps _].
      rewrite Happ in Hkeeps. simpl in Hkeeps.
      destruct (Hkeeps _ _ Hin) as (d' & Hd' & Hsame).
      rewrite Hd in Hd'. injection Hd' as <-.
      unfold isNamed in Hnamed.
      apply andb_true_iff in Hnamed as [Hn Hty].
      apply String.eqb_eq in Hn, Hty.
      eexists _, _. split; [apply lookup_insert_eq|].
      rewrite Hsame. simpl. by split.
    - subst inventory1. unfold addDoc.
      eexists _, _. split; [apply lookup_insert_eq|]. by split. }
  unfold handleChangeOrderStatus. rewrite find_finished_goods. simpl.
  destruct (List.find _ (snapshot inventory1)) as [item|] eqn:Hfind.
  - destruct (Number.lt _ _); [done|]. destruct (negb confirm); [done|].
    destruct (updateDoc inventory1 _ _); [|done].
    by destruct (updateDoc salesOrders _ _).
  - exfalso.
    assert (In (j, d) (snapshot inventory1)) as Hin
      by (by apply list_elem_of_In, elem_of_map_to_list).
    apply (find_none _ _ Hfind) in Hin.
    unfold isNamed in Hin. simpl in Hin.
    by rewrite Hn, Hname, Hty, !String.eqb_refl in Hin.
Qed.

Lemma produced_good_is_found_by_orders_witness :
  (handleChangeOrderStatus true
       (SalesNotePage.inventoryListener
          (snapshot
             (handleConfirmProduction true oneBagItems true torta (Num 1)
                oneBag).2))
       [torta] true "o1" "Pendiente" (Some "r1") EmptyString (Num 1)
       (handleConfirmProduction true oneBagItems true torta (Num 1)
          oneBag).2
       {[ "o1" := pedido "Pendiente" ]}).1.1
    ≠ ProductNotFound "Torta".
Proof.
  refine (produced_good_is_found_by_orders true true oneBagItems [torta]
            torta (Num 1) oneBag true "o1" (Some "r1") EmptyString (Num 1)
            {[ "o1" := pedido "Pendiente" ]} _ _ _ "Torta").
  - intros item [<-|[]]. vm_compute. reflexivity.
  - vm_compute. reflexivity.
  - vm_compute. reflexivity.
Defined.

(** X25.  An order keeps the id of its recipe, not the recipe.  Once the
    recipe is deleted, the order is completed as an order without a recipe
    is, under its description: the same product is looked up, with the same
    outcome and the same writes, on any list of the recipes that are left,
    in whatever order the listener gives them.  Re-opened, it writes what
    an order without a recipe writes, but the message of line 1318 shows
    [undefined] where that of an order without a recipe shows the
    description. *)
Theorem order_of_deleted_recipe_uses_description (ready confirm : bool)
    (inventoryItems : list inventoryItem) (recipes : gmap string Recipe.doc)
    (recipesData : list recipe) (id orderId : string)
    (productDescription : string) (quantity : number)
    (inventory : gmap string Inventory.doc)
    (salesOrders : gmap string Order.doc) :
  recipesData ≡ₚ snapshot (RecipesPage.handleDeleteRecipe true id recipes) →
  productNameForDeduction recipesData (Some id) productDescription
  = productDescription
  ∧ handleChangeOrderStatus ready inventoryItems recipesData confirm orderId
      "Pendiente" (Some id) productDescription quantity inventory
      salesOrders
    = handleChangeOrderStatus ready inventoryItems recipesData confirm
        orderId "Pendiente" None productDescription quantity inventory
        salesOrders
  ∧ (∀ currentStatus,
       let linked :=
         handleChangeOrderStatus ready inventoryItems recipesData confirm
           orderId currentStatus (Some id) productDescription quantity
           inventory salesOrders in
       let plain :=
         handleChangeOrderStatus ready inventoryItems recipesData confirm
           orderId currentStatus None productDescription quantity
           inventory salesOrders in
       linked.1.2 = plain.1.2 ∧ linked.2 = plain.2)
  ∧ (id ≠ EmptyString →
     reopenedOrderName recipesData (Some id) productDescription = None)
  ∧ reopenedOrderName recipesData None productDescription
    = Some productDescription.
Proof.
  intros Hperm.
  assert (List.find (λ r : recipe, bool_decide (Some r.1 = Some id))
            recipesData = None) as Hfind.
  { destruct (List.find _ recipesData) as [r|] eqn:Hfind; [|done].
    apply find_some in Hfind as [Hin Hid].
    apply bool_decide_eq_true in Hid. injection Hid as <-.
    apply list_elem_of_In in Hin. rewrite Hperm in Hin.
    destruct r as [j d]. apply elem_of_map_to_list in Hin.
    simpl in Hin. by rewrite lookup_delete_eq in Hin. }
  assert (productNameForDeduction recipesData (Some id) productDescription
          = productDescription) as Hname.
  { unfold productNameForDeduction. rewrite Hfind.
    by destruct (isSet (Some id)). }
  assert (∀ currentStatus,
            handleChangeOrderStatus ready inventoryItems recipesData confirm
              orderId currentStatus (Some id) productDescription quantity
              inventory salesOrders
            = handleChangeOrderStatus ready inventoryItems recipesData
                confirm orderId currentStatus None productDescription
                quantity inventory salesOrders) as Hsame.
  { intros currentStatus. unfold handleChangeOrderStatus.
    by rewrite Hname. }
  split; [done|]. split; [apply Hsame|]. split.
  - intros currentStatus. simpl. by rewrite Hsame.
  - split; [|done]. intros Hid. unfold reopenedOrderName. rewrite Hfind.
    apply String.eqb_neq in Hid. simpl. by rewrite Hid.
Qed.

Lemma order_of_deleted_recipe_uses_description_witness :
  productNameForDeduction [bread] (Some "r1") "Torta" = "Torta"
  ∧ reopenedOrderName [bread] (Some "r1") "Torta" = None.
Proof.
  destruct (order_of_deleted_recipe_uses_description true true
              [("p1", tortas)] {[ "r1" := torta.2; "r3" := bread.2 ]}
              [bread] "r1" "o1" "Torta" (Num 5) {[ "p1" := tortas ]}
              {[ "o1" := pedido "Pendiente" ]})
    as (Hname & _ & _ & Hreopened & _).
  - vm_compute. reflexivity.
  - split; [exact Hname|]. by apply Hreopened.
Defined.

(** ** The types of the inventory *)

Lemma keepsDocuments_knownType (m m' : gmap string Inventory.doc) :
  keepsDocuments m m' → (∀ j, m !! j = None → m' !! j = None) →
  map_Forall (λ _, knownType) m → map_Forall (λ _, knownType) m'.
Proof.
  intros Hkeeps Hnone Hm j d' Hd'.
  destruct (m !! j) as [d|] eqn:Hd.
  - destruct (Hkeeps j d Hd) as (d'' & Hd'' & Hsame).
    rewrite Hd' in Hd''. injection Hd'' as <-.
    specialize (Hm j d Hd). unfold knownType in *. simpl in Hm.
    rewrite Hsame. exact Hm.
  - apply Hnone in Hd. congruence.
Qed.

Lemma updateDoc_setStock_knownType (m m' : gmap string Inventory.doc)
    (id : string) (s : number) :
  updateDoc m id (Inventory.setStock s) = Some m' →
  map_Forall (λ _, knownType) m → map_Forall (λ _, knownType) m'.
Proof.
  intros H. apply updateDoc_setStock_keeps in H as [Hkeeps Hnone].
  by apply keepsDocuments_knownType.
Qed.

(** X26.  Every document of the inventory is a raw material or a finished
    good, and every handler that writes to the inventory keeps it so: the
    form and the tables of the inventory page, a production and a change
    of status of an order, whatever their outcome. *)
Theorem inventory_types_are_known (parseFloat : string → number)
    (f : InventoryPage.form) (itemId newStockValue : string)
    (ready confirm : bool) (inventoryItems : list inventoryItem)
    (recipes : list recipe) (recipe : recipe) (quantityToProduce : number)
    (orderId currentStatus : string) (selectedRecipeId : option string)
    (productDescription : string) (quantity : number)
    (salesOrders : gmap string Order.doc)
    (inventory : gmap string Inventory.doc) :
  map_Forall (λ _, knownType) inventory →
  map_Forall (λ _, knownType)
    (InventoryPage.handleAddOrUpdateItem parseFloat f inventory).2
  ∧ map_Forall (λ _, knownType)
      (InventoryPage.handleStockChange parseFloat itemId newStockValue
         inventory).2
  ∧ map_Forall (λ _, knownType)
      (handleConfirmProduction ready inventoryItems confirm recipe
         quantityToProduce inventory).2
  ∧ map_Forall (λ _, knownType)
      (handleChangeOrderStatus ready inventoryItems recipes confirm orderId
         currentStatus selectedRecipeId productDescription quantity
         inventory salesOrders).1.2.
Proof.
  intros Hinv. split; [|split; [|split]].
  - unfold InventoryPage.handleAddOrUpdateItem.
    destruct (_ || _ || _ || _); [done|]. cbv zeta.
    destruct (_ || _ || _ || _); [done|].
    destruct (if isSet _ then _ else None) as [j|].
    + unfold updateDoc. destruct (inventory !! j); [|done]. simpl.
      apply map_Forall_insert_2; [by left|done].
    + simpl. apply map_Forall_insert_2; [by left|done].
  - unfold InventoryPage.handleStockChange.
    destruct (_ || _); [done|].
    destruct (updateDoc _ _ _) eqn:E; [|done].
    by eapply updateDoc_setStock_knownType.
  - unfold handleConfirmProduction.
    destruct (negb ready); [done|]. destruct (Number.le _ _); [done|].
    cbv zeta. destruct (negb (canProduce _)); [done|].
    destruct (negb confirm); [done|].
    destruct (applyDeductions_keeps
                (deductions
                   (checkIngredients inventoryItems quantityToProduce
                      (Recipe.ingredients recipe.2))) inventory)
      as [Hkeeps Hnone].
    destruct (applyDeductions _ _) as [[] inventory'] eqn:Happ;
      simpl in Hkeeps, Hnone;
      pose proof (keepsDocuments_knownType _ _ Hkeeps Hnone Hinv) as Hinv';
      [|done].
    destruct (find _ _) as [finishedProduct|].
    + destruct (updateDoc _ _ _) eqn:E; [|done].
      by eapply updateDoc_setStock_knownType.
    + simpl. apply map_Forall_insert_2; [by right|done].
  - unfold handleChangeOrderStatus.
    destruct (negb ready); [done|].
    destruct (String.eqb (if String.eqb currentStatus _ then _ else _) _).
    + destruct (find _ _) as [finishedProduct|]; [|done].
      destruct (Number.lt _ _); [done|]. destruct (negb confirm); [done|].
      destruct (updateDoc inventory _ _) eqn:E; [|done].
      apply (updateDoc_setStock_knownType _ _ _ _ E) in Hinv.
      by destruct (updateDoc salesOrders _ _).
    + destruct (negb confirm); [done|].
      by destruct (updateDoc salesOrders _ _).
Qed.

Lemma inventory_types_are_known_witness :
  map_Forall (λ _, knownType)
    (handleConfirmProduction true oneBagItems true torta (Num 1) oneBag).2.
Proof.
  destruct (inventory_types_are_known parseDigits InventoryPage.resetForm
              "h1" "2" true true oneBagItems [torta] torta (Num 1)
              "o1" "Pendiente" (Some "r1") EmptyString (Num 1)
              {[ "o1" := pedido "Pendiente" ]} oneBag)
    as (_ & _ & H & _); [|exact H].
  apply map_Forall_singleton. by left.
Defined.

Lemma filter_partition {A : Type} (p q : A → bool) (l : list A) :
  Forall (λ x, p x = negb (q x)) l →
  List.filter p l ++ List.filter q l ≡ₚ l.
Proof.
  induction 1 as [|x l Hx _ IH]; simpl; [done|].
  rewrite Hx. destruct (q x); simpl.
  - rewrite <- Permutation_middle. by constructor.
  - by constructor.
Qed.

(** X27.  The two tables of the inventory page show every item once: when
    every document is a raw material or a finished good, the rows of the
    table of raw materials and the rows of the table of finished goods
    are, together, the items of the snapshot, and no item is in both. *)
Theorem every_item_is_in_one_table (inventory : gmap string Inventory.doc) :
  map_Forall (λ _, knownType) inventory →
  InventoryPage.rawMaterials (snapshot inventory)
  ++ InventoryPage.finishedGoods (snapshot inventory)
  ≡ₚ snapshot inventory
  ∧ ∀ item, In item (InventoryPage.rawMaterials (snapshot inventory)) →
            ¬ In item (InventoryPage.finishedGoods (snapshot inventory)).
Proof.
  intros Hinv. split.
  - apply filter_partition, Forall_forall. intros [j d] Hin.
    apply elem_of_map_to_list in Hin. simpl.
    by destruct (Hinv j d Hin) as [-> | ->].
  - intros item Hraw Hfin.
    apply filter_In in Hraw as [_ Hraw]. apply filter_In in Hfin as [_ Hfin].
    apply String.eqb_eq in Hraw, Hfin. congruence.
Qed.

Lemma every_item_is_in_one_table_witness :
  InventoryPage.rawMaterials (snapshot oneBag)
  ++ InventoryPage.finishedGoods (snapshot oneBag)
  ≡ₚ snapshot oneBag.
Proof.
  apply (every_item_is_in_one_table oneBag).
  apply map_Forall_singleton. by left.
Defined.
